(** * ochazuke.helpers: date ranges and timeline slices

    A shallow embedding of [ochazuke/helpers.py] (webcompat-metrics-server)
    and of the parts of Python's [datetime] and [_strptime] modules that the
    helpers call, followed by the properties of the helpers.

    Conventions of the embedding.
    - A Python [str] is a [string]; its characters stand for code points
      below 256, among which the decimal digits matched by the regular
      expression class [\d] are exactly '0'..'9'.
    - A Python call that may raise returns a [result]; [Raise e] is the
      exception propagating to the caller.
    - [datetime.datetime.strptime] with the format "%Y-%m-%d" always yields
      midnight, so a datetime is kept as its calendar date.
    - [strftime] hands "%Y" to the C library, whose rendering of years
      below 1000 differs between platforms; it is a parameter ([CLib]).
    - [json.loads] and [json.dumps] are parameters ([Json]); a decoded
      document is a [value]. *)

From Stdlib Require Import ZArith List String Ascii Bool Lia Sorted
  DecimalString.
Import ListNotations.
Local Open Scope Z_scope.

(** ** Exceptions and results *)

Module Py.

Inductive exn : Set :=
| TypeError
| KeyError
| ValueError
| OverflowError
| JSONDecodeError.

Inductive result (A : Type) : Type :=
| Ok (a : A)
| Raise (e : exn).

Arguments Ok {A} a.
Arguments Raise {A} e.

Definition bind {A B : Type} (r : result A) (k : A -> result B) : result B :=
  match r with
  | Ok a => k a
  | Raise e => Raise e
  end.

Definition raises {A : Type} (r : result A) : bool :=
  match r with
  | Ok _ => false
  | Raise _ => true
  end.

(** The objects [json.loads] builds.  A float is kept as its IEEE-754
    binary64 bit pattern; a [dict] keeps its items in insertion order. *)
#[warnings="-register-all"] Inductive value : Type :=
| VNone
| VBool (b : bool)
| VInt (n : Z)
| VFloat (bits : Z)
| VStr (s : string)
| VList (l : list value)
| VDict (items : list (string * value)).

Fixpoint dict_get (key : string) (items : list (string * value))
  : option value :=
  match items with
  | [] => None
  | (k, v) :: rest => if String.eqb k key then Some v else dict_get key rest
  end.

(** Assignment to a key keeps the position of a key already present and
    appends a new one. *)
Fixpoint dict_set (key : string) (v : value) (items : list (string * value))
  : list (string * value) :=
  match items with
  | [] => [(key, v)]
  | (k, w) :: rest =>
      if String.eqb k key then (k, v) :: rest
      else (k, w) :: dict_set key v rest
  end.

(** Truth value of an object, as [if obj:] tests it. *)
Definition truth (obj : value) : bool :=
  match obj with
  | VNone => false
  | VBool b => b
  | VInt n => negb (n =? 0)
  | VFloat bits => negb (bits mod 2 ^ 63 =? 0)
  | VStr s => negb (String.length s =? 0)%nat
  | VList l => negb (List.length l =? 0)%nat
  | VDict items => negb (List.length items =? 0)%nat
  end.

(** [obj[key]] for a [str] key. *)
Definition getitem (obj : value) (key : string) : result value :=
  match obj with
  | VDict items =>
      match dict_get key items with
      | Some v => Ok v
      | None => Raise KeyError
      end
  | _ => Raise TypeError
  end.

(** [obj[key] = v] for a [str] key: the object after the assignment. *)
Definition setitem (obj : value) (key : string) (v : value) : result value :=
  match obj with
  | VDict items => Ok (VDict (dict_set key v items))
  | _ => Raise TypeError
  end.

(** [obj[:n]]; only a [str] and a [list] can be sliced. *)
Definition slice_to (obj : value) (n : nat) : result value :=
  match obj with
  | VStr s => Ok (VStr (substring 0 n s))
  | VList l => Ok (VList (firstn n l))
  | _ => Raise TypeError
  end.

Fixpoint chars (s : string) : list value :=
  match s with
  | EmptyString => []
  | String c rest => VStr (String c EmptyString) :: chars rest
  end.

(** The objects a [for] clause draws from [obj]. *)
Definition iter (obj : value) : result (list value) :=
  match obj with
  | VList l => Ok l
  | VDict items => Ok (map (fun kv => VStr (fst kv)) items)
  | VStr s => Ok (chars s)
  | _ => Raise TypeError
  end.

(** [x in container], the container being [None] or a list of [str]. *)
Definition contains (container : option (list string)) (x : value)
  : result bool :=
  match container with
  | None => Raise TypeError
  | Some l =>
      match x with
      | VStr s => Ok (existsb (String.eqb s) l)
      | _ => Ok false
      end
  end.

(** [[x for x in l if cond x]], the elements visited in order. *)
Fixpoint comprehension (cond : value -> result bool) (l : list value)
  : result (list value) :=
  match l with
  | [] => Ok []
  | x :: rest =>
      match cond x with
      | Raise e => Raise e
      | Ok b =>
          match comprehension cond rest with
          | Raise e => Raise e
          | Ok kept => Ok (if b then x :: kept else kept)
          end
      end
  end.

(** [range(lo, hi)]. *)
Fixpoint count_from (lo : Z) (n : nat) : list Z :=
  match n with
  | O => []
  | S k => lo :: count_from (lo + 1) k
  end.

Definition range (lo hi : Z) : list Z := count_from lo (Z.to_nat (hi - lo)).

(** A loop that appends [f n] for each [n] of [l]. *)
Fixpoint for_append {A B : Type} (f : A -> result B) (l : list A)
  : result (list B) :=
  match l with
  | [] => Ok []
  | n :: rest =>
      match f n with
      | Raise e => Raise e
      | Ok b =>
          match for_append f rest with
          | Raise e => Raise e
          | Ok bs => Ok (b :: bs)
          end
      end
  end.

End Py.

(** What the helpers take from the platform and from the [json] module. *)

Class CLib : Type := {
  (** the C library's rendering of "%Y" *)
  strftime_Y : Z -> string
}.

Class Json : Type := {
  json_loads : string -> Py.result Py.value;
  json_dumps : Py.value -> string
}.

Import Py.

Notation "x <- r ;; k" := (bind r (fun x => k))
  (at level 61, r at next level, right associativity).
Notation "' p <- r ;; k" := (bind r (fun p => k))
  (at level 61, p pattern, r at next level, right associativity).

(** ** The calendar of [datetime] *)

Module Datetime.

Definition MINYEAR : Z := 1.
Definition MAXYEAR : Z := 9999.
Definition _MAXORDINAL : Z := 3652059.

(** [_DAYS_IN_MONTH] and [_DAYS_BEFORE_MONTH], indexed by month; index 0
    holds the placeholder -1. *)
Definition _DAYS_IN_MONTH (month : Z) : Z :=
  match month with
  | 1 => 31 | 2 => 28 | 3 => 31 | 4 => 30 | 5 => 31 | 6 => 30
  | 7 => 31 | 8 => 31 | 9 => 30 | 10 => 31 | 11 => 30 | 12 => 31
  | _ => -1
  end.

Definition _DAYS_BEFORE_MONTH (month : Z) : Z :=
  match month with
  | 1 => 0 | 2 => 31 | 3 => 59 | 4 => 90 | 5 => 120 | 6 => 151
  | 7 => 181 | 8 => 212 | 9 => 243 | 10 => 273 | 11 => 304 | 12 => 334
  | _ => -1
  end.

Definition _is_leap (year : Z) : bool :=
  (year mod 4 =? 0) && (negb (year mod 100 =? 0) || (year mod 400 =? 0)).

Definition _days_before_year (year : Z) : Z :=
  let y := year - 1 in
  y * 365 + y / 4 - y / 100 + y / 400.

Definition _days_in_month (year month : Z) : Z :=
  if (month =? 2) && _is_leap year then 29 else _DAYS_IN_MONTH month.

Definition _days_before_month (year month : Z) : Z :=
  _DAYS_BEFORE_MONTH month + (if (2 <? month) && _is_leap year then 1 else 0).

Definition _ymd2ord (year month day : Z) : Z :=
  _days_before_year year + _days_before_month year month + day.

Definition _DI400Y : Z := 146097.
Definition _DI100Y : Z := 36524.
Definition _DI4Y : Z := 1461.

Definition _ord2ymd (n : Z) : Z * Z * Z :=
  let n := n - 1 in
  let n400 := n / _DI400Y in
  let n := n mod _DI400Y in
  let year := n400 * 400 + 1 in
  let n100 := n / _DI100Y in
  let n := n mod _DI100Y in
  let n4 := n / _DI4Y in
  let n := n mod _DI4Y in
  let n1 := n / 365 in
  let n := n mod 365 in
  let year := year + (n100 * 100 + n4 * 4 + n1) in
  if (n1 =? 4) || (n100 =? 4) then (year - 1, 12, 31)
  else
    let leapyear := (n1 =? 3) && (negb (n4 =? 24) || (n100 =? 3)) in
    let month := Z.shiftr (n + 50) 5 in
    let preceding :=
      _DAYS_BEFORE_MONTH month + (if (2 <? month) && leapyear then 1 else 0) in
    if n <? preceding then
      let month := month - 1 in
      let preceding :=
        preceding
        - (_DAYS_IN_MONTH month + (if (month =? 2) && leapyear then 1 else 0)) in
      (year, month, n - preceding + 1)
    else (year, month, n - preceding + 1).

(** A datetime at midnight: the fields of the [date] it carries. *)
Record date : Set := mkdate { year : Z; month : Z; day : Z }.

(** [_check_date_fields]: the constructor accepts exactly these triples. *)
Definition valid_date (d : date) : bool :=
  (MINYEAR <=? year d) && (year d <=? MAXYEAR)
  && (1 <=? month d) && (month d <=? 12)
  && (1 <=? day d) && (day d <=? _days_in_month (year d) (month d)).

Definition date_new (y m d : Z) : result date :=
  if valid_date (mkdate y m d) then Ok (mkdate y m d) else Raise ValueError.

(** [==] on datetimes at midnight. *)
Definition date_eqb (a b : date) : bool :=
  (year a =? year b) && (month a =? month b) && (day a =? day b).

(** [<] on datetimes at midnight: the fields compared in order. *)
Definition date_ltb (a b : date) : bool :=
  (year a <? year b)
  || ((year a =? year b)
      && ((month a <? month b)
          || ((month a =? month b) && (day a <? day b)))).

Definition date_leb (a b : date) : bool := date_ltb a b || date_eqb a b.

Definition toordinal (d : date) : Z := _ymd2ord (year d) (month d) (day d).

Definition fromordinal (n : Z) : date :=
  let '(y, m, d) := _ord2ymd n in mkdate y m d.

(** [(a - b).days] for two datetimes at midnight. *)
Definition sub_days (a b : date) : Z := toordinal a - toordinal b.

(** [d + timedelta(days=n)]; [d - timedelta(days=n)] is [add_days d (- n)]. *)
Definition add_days (d : date) (n : Z) : result date :=
  let o := toordinal d + n in
  if (0 <? o) && (o <=? _MAXORDINAL) then Ok (fromordinal o)
  else Raise OverflowError.

End Datetime.

Import Datetime.

(** ** [strptime] and [strftime] for the format "%Y-%m-%d" *)

Module Strptime.

Local Open Scope string_scope.
Local Open Scope Z_scope.

(** The value of a character of the class [\d]. *)
Definition digit_val (c : ascii) : option Z :=
  let n := Z.of_N (N_of_ascii c) in
  if (48 <=? n) && (n <=? 57) then Some (n - 48) else None.

(** A character of the class [[lo-hi]], bounds given as digit values. *)
Definition digit_in (lo hi : Z) (c : ascii) : option Z :=
  match digit_val c with
  | Some v => if (lo <=? v) && (v <=? hi) then Some v else None
  | None => None
  end.

(** A piece of the compiled regular expression maps the text left to match
    to the ways it can match a prefix, in the order the backtracking matcher
    tries them; each way gives the value read and the text that remains. *)
Definition matcher (A : Type) : Type := string -> list (A * string).

(** [(?P<Y>\d\d\d\d)] *)
Definition re_Y : matcher Z := fun s =>
  match s with
  | String a (String b (String c (String d rest))) =>
      match digit_val a, digit_val b, digit_val c, digit_val d with
      | Some a, Some b, Some c, Some d =>
          [(1000 * a + 100 * b + 10 * c + d, rest)]
      | _, _, _, _ => []
      end
  | _ => []
  end.

(** Two characters of the classes [[l1-h1]] and [[l2-h2]], read as a number. *)
Definition re_two (l1 h1 l2 h2 : Z) : matcher Z := fun s =>
  match s with
  | String a (String b rest) =>
      match digit_in l1 h1 a, digit_in l2 h2 b with
      | Some a, Some b => [(10 * a + b, rest)]
      | _, _ => []
      end
  | _ => []
  end.

(** One character of the class [[1-9]]. *)
Definition re_one : matcher Z := fun s =>
  match s with
  | String a rest =>
      match digit_in 1 9 a with
      | Some a => [(a, rest)]
      | None => []
      end
  | _ => []
  end.

(** A space, then one character of the class [[1-9]]. *)
Definition re_space_one : matcher Z := fun s =>
  match s with
  | String " " rest => re_one rest
  | _ => []
  end.

(** [(?P<m>1[0-2]|0[1-9]|[1-9])] *)
Definition re_m : matcher Z := fun s =>
  (re_two 1 1 0 2 s ++ re_two 0 0 1 9 s ++ re_one s)%list.

(** [(?P<d>3[0-1]|[1-2]\d|0[1-9]|[1-9]| [1-9])] *)
Definition re_d : matcher Z := fun s =>
  (re_two 3 3 0 1 s ++ re_two 1 2 0 9 s ++ re_two 0 0 1 9 s
   ++ re_one s ++ re_space_one s)%list.

(** The literal "-" of the format. *)
Definition re_dash : matcher unit := fun s =>
  match s with
  | String "-" rest => [(tt, rest)]
  | _ => []
  end.

(** [format_regex.match(data_string)]: the first way the whole pattern
    matches a prefix of the text, with the three groups and the text after
    the match. *)
Definition format_regex_match (data_string : string)
  : option (Z * Z * Z * string) :=
  hd_error
    (flat_map (fun '(y, s1) =>
     flat_map (fun '(_, s2) =>
     flat_map (fun '(m, s3) =>
     flat_map (fun '(_, s4) =>
     map (fun '(d, s5) => (y, m, d, s5)) (re_d s4))
       (re_dash s3)) (re_m s2)) (re_dash s1)) (re_Y data_string)).

(** [datetime.datetime.strptime(data_string, "%Y-%m-%d")]. *)
Definition strptime (data_string : string) : result date :=
  match format_regex_match data_string with
  | None => Raise ValueError              (* does not match format *)
  | Some (y, m, d, rest) =>
      if (String.length rest =? 0)%nat then date_new y m d
      else Raise ValueError               (* unconverted data remains *)
  end.

Definition digit_char (n : Z) : ascii :=
  ascii_of_N (Z.to_N (48 + n mod 10)).

Definition zfill2 (n : Z) : string :=
  String (digit_char (n / 10)) (String (digit_char n) EmptyString).

Definition zfill4 (n : Z) : string :=
  String (digit_char (n / 1000)) (String (digit_char (n / 100)) (zfill2 n)).

(** [d.strftime("%Y-%m-%d")]. *)
Definition strftime {C : CLib} (d : date) : string :=
  strftime_Y (year d) ++ "-" ++ zfill2 (month d) ++ "-" ++ zfill2 (day d).

(** "%Y" as the Python documentation shows it: 0001, ..., 9999. *)
Definition zero_filled : CLib := {| strftime_Y := zfill4 |}.

(** "%Y" as glibc prints it: the year in decimal, without padding. *)
Definition glibc_Y (y : Z) : string :=
  if y <? 10 then String (digit_char y) EmptyString
  else if y <? 100 then zfill2 y
  else if y <? 1000 then String (digit_char (y / 100)) (zfill2 y)
  else zfill4 y.

Definition glibc : CLib := {| strftime_Y := glibc_Y |}.

End Strptime.

Import Strptime.

Local Open Scope string_scope.
Local Open Scope Z_scope.

(** ** The helpers *)

Module Helpers.

Section WithPlatform.

Context {C : CLib} {J : Json}.

Definition get_days (from_date to_date : string)
  : result (option (list string)) :=
  match (start <- strptime from_date;;
         end_ <- strptime to_date;;
         Ok (start, end_)) with
  | Raise _ => Ok None
  | Ok (start, end_) =>
      if date_eqb start end_ then Ok (Some [from_date])
      else
        let days := sub_days end_ start in
        let '(end_, days) :=
          if days <? 0 then (start, Z.abs days) else (end_, days) in
        dates <- for_append
                   (fun n =>
                      new_date <- add_days end_ (- n);;
                      Ok (strftime new_date))
                   (range 0 (days + 1));;
        Ok (Some dates)
  end.

Definition get_timeline_slice (timeline : value)
    (dates_list : option (list string)) : result (list value) :=
  items <- iter timeline;;
  comprehension
    (fun dated_data =>
       timestamp <- getitem dated_data "timestamp";;
       prefix <- slice_to timestamp 10;;
       contains dates_list prefix)
    items.

Definition get_json_slice (timeline from_date to_date : string)
  : result string :=
  dates <- get_days from_date to_date;;
  full_data <- json_loads timeline;;
  whole <- getitem full_data "timeline";;
  partial_data <- get_timeline_slice whole dates;;
  full_data <- setitem full_data "timeline" (VList partial_data);;
  Ok (json_dumps full_data).

(** [strptime] applied to an arbitrary object. *)
Definition strptime_obj (obj : value) : result date :=
  match obj with
  | VStr s => strptime s
  | _ => Raise TypeError
  end.

Definition is_valid_args (args : value) : bool :=
  if truth args then
    match (from_date <- getitem args "from";;
           to_date <- getitem args "to";;
           Ok (from_date, to_date)) with
    | Raise _ => false
    | Ok (from_date, to_date) =>
        match (_ <- strptime_obj from_date;; strptime_obj to_date) with
        | Raise _ => false
        | Ok _ => true
        end
    end
  else false.

Definition VALID_CATEGORY : list string :=
  ["needsdiagnosis"; "needstriage"; "needscontact"; "contactready";
   "sitewait"].

Definition is_valid_category (category : string) : bool :=
  if existsb (String.eqb category) VALID_CATEGORY then true else false.

Definition normalize_date_range (from_date to_date : string)
  : result (option (string * string)) :=
  match (start <- strptime from_date;;
         end_ <- strptime to_date;;
         Ok (start, end_)) with
  | Raise _ => Ok None
  | Ok (start, end_) =>
      end_ <- add_days end_ 1;;
      let end_date := strftime end_ in
      let start_date := strftime start in
      Ok (Some (start_date, end_date))
  end.

End WithPlatform.

End Helpers.

Import Helpers.

(** ** Definitions for the statements *)

Module Spec.

(** The last day [datetime] can hold. *)
Definition date_max : date := mkdate 9999 12 31.

(** The calendar day after [d]. *)
Definition tomorrow (d : date) : date :=
  if day d <? _days_in_month (year d) (month d)
  then mkdate (year d) (month d) (day d + 1)
  else if month d <? 12 then mkdate (year d) (month d + 1) 1
  else mkdate (year d + 1) 1 1.

(** The later and the earlier of two dates. *)
Definition later (a b : date) : date := if date_ltb a b then b else a.
Definition earlier (a b : date) : date := if date_ltb a b then a else b.

(** The dates the loop of [get_days] visits: [n + 1] days, from [hi]
    backwards. *)
Definition days_back (hi : date) (n : Z) : list date :=
  map (fun i => fromordinal (toordinal hi - i)) (range 0 (n + 1)).

(** A timeline record: a [dict] whose "timestamp" is a [str]. *)
Definition is_record (r : value) : bool :=
  match r with
  | VDict items =>
      match dict_get "timestamp" items with
      | Some (VStr _) => true
      | _ => false
      end
  | _ => false
  end.

(** The first 10 characters of the timestamp of a record. *)
Definition date_prefix (r : value) : string :=
  match r with
  | VDict items =>
      match dict_get "timestamp" items with
      | Some (VStr ts) => substring 0 10 ts
      | _ => EmptyString
      end
  | _ => EmptyString
  end.

Definition wanted (dates : list string) (r : value) : bool :=
  existsb (String.eqb (date_prefix r)) dates.

(** [l1] is [l2] with some elements left out. *)
Inductive Subseq {A : Type} : list A -> list A -> Prop :=
| Subseq_nil : Subseq [] []
| Subseq_skip (x : A) (l1 l2 : list A) : Subseq l1 l2 -> Subseq l1 (x :: l2)
| Subseq_keep (x : A) (l1 l2 : list A) :
    Subseq l1 l2 -> Subseq (x :: l1) (x :: l2).

(** The last step of [_ord2ymd]: month and day of the day at offset [n]
    from January 1st. *)
Definition month_day (leapyear : bool) (n : Z) : Z * Z :=
  let month := Z.shiftr (n + 50) 5 in
  let preceding :=
    _DAYS_BEFORE_MONTH month + (if (2 <? month) && leapyear then 1 else 0) in
  if n <? preceding then
    let month := month - 1 in
    let preceding :=
      preceding
      - (_DAYS_IN_MONTH month + (if (month =? 2) && leapyear then 1 else 0)) in
    (month, n - preceding + 1)
  else (month, n - preceding + 1).

(** What the step must satisfy, as a test. *)
Definition check_month_day (leapyear : bool) (n : Z) : bool :=
  let '(m, d) := month_day leapyear n in
  (1 <=? m) && (m <=? 12) && (1 <=? d)
  && (d <=? (if (m =? 2) && leapyear then 29 else _DAYS_IN_MONTH m))
  && (_DAYS_BEFORE_MONTH m + (if (2 <? m) && leapyear then 1 else 0) + d
      =? n + 1).

End Spec.

Import Spec.

(** ** A platform for the examples *)

Module Example.

Definition dquote : ascii := "034"%char.
Definition backslash : ascii := "092"%char.

Definition hex_digit (n : Z) : ascii :=
  ascii_of_N (Z.to_N (if n <? 10 then 48 + n else 87 + n)).

(** One character of a string as [json.dumps] writes it (with
    [ensure_ascii], its default). *)
Definition escape (c : ascii) : string :=
  let n := Z.of_N (N_of_ascii c) in
  if n =? 34 then String backslash (String dquote EmptyString)
  else if n =? 92 then String backslash (String backslash EmptyString)
  else if n =? 10 then String backslash "n"
  else if n =? 13 then String backslash "r"
  else if n =? 9 then String backslash "t"
  else if n =? 8 then String backslash "b"
  else if n =? 12 then String backslash "f"
  else if (n <? 32) || (126 <? n) then
    String backslash
      ("u00" ++ String (hex_digit (n / 16)) (String (hex_digit (n mod 16)) EmptyString))
  else String c EmptyString.

Fixpoint escape_all (s : string) : string :=
  match s with
  | EmptyString => EmptyString
  | String c rest => escape c ++ escape_all rest
  end.

Definition quote (s : string) : string :=
  String dquote (escape_all s ++ String dquote EmptyString).

(** [json.dumps] with its default separators, on documents without floats
    (none of the documents below holds one; a float is written NaN). *)
Fixpoint dumps (v : value) : string :=
  match v with
  | VNone => "null"
  | VBool true => "true"
  | VBool false => "false"
  | VInt n => NilZero.string_of_int (Z.to_int n)
  | VFloat _ => "NaN"
  | VStr s => quote s
  | VList l =>
      "[" ++ (fix elements (l : list value) : string :=
                match l with
                | [] => EmptyString
                | [x] => dumps x
                | x :: rest => dumps x ++ ", " ++ elements rest
                end) l ++ "]"
  | VDict items =>
      "{" ++ (fix members (l : list (string * value)) : string :=
                match l with
                | [] => EmptyString
                | [(k, x)] => quote k ++ ": " ++ dumps x
                | (k, x) :: rest =>
                    quote k ++ ": " ++ dumps x ++ ", " ++ members rest
                end) items ++ "}"
  end.

Definition record (count : Z) (timestamp : string) : value :=
  VDict [("count", VInt count); ("timestamp", VStr timestamp)].

(** Three days of a category. *)
Definition three_days : list value :=
  [record 485 "2021-01-01T00:00:00Z";
   record 492 "2021-01-02T00:00:00Z";
   record 501 "2021-01-03T00:00:00Z"].

Definition envelope : list (string * value) :=
  [("about", VStr "needsdiagnosis"); ("timeline", VList three_days);
   ("numbering", VInt 3)].

(** One day. *)
Definition one_day : list (string * value) :=
  [("timeline", VList [record 485 "2021-01-01T00:00:00Z"])].

(** No day at all. *)
Definition no_day : list (string * value) :=
  [("about", VStr "sitewait"); ("timeline", VList [])].

Definition documents : list value :=
  [VDict envelope; VDict one_day; VDict no_day].

(** [json.loads] on the texts of the documents above; any other text is
    refused. *)
Definition loads (text : string) : result value :=
  match find (fun doc => String.eqb (dumps doc) text) documents with
  | Some doc => Ok doc
  | None => Raise JSONDecodeError
  end.

Definition json : Json := {| json_loads := loads; json_dumps := dumps |}.

End Example.

Import Example.

(** ** Further definitions for the statements *)

Module Reading.

(** The part of the compiled pattern after the year: "-", month, "-",
    day; each way to match gives the month, the day and the text left. *)
Definition month_day_match (s1 : string) : list (Z * Z * string) :=
  flat_map (fun '(_, s2) =>
  flat_map (fun '(m, s3) =>
  flat_map (fun '(_, s4) =>
  map (fun '(d, s5) => (m, d, s5)) (re_d s4))
    (re_dash s3)) (re_m s2)) (re_dash s1).

(** Month and day written with two digits are read back, whole. *)
Definition check_two_digits (m d : Z) : bool :=
  match month_day_match
          (String "-" (zfill2 m ++ String "-" (zfill2 d))) with
  | (m', d', rest) :: _ =>
      (m' =? m) && (d' =? d) && (String.length rest =? 0)%nat
  | [] => false
  end.

(** A second decoder for the examples: documents that are not envelopes. *)
Definition other_documents : list value :=
  [VList three_days; VDict [("about", VStr "needstriage")]].

Definition other_loads (text : string) : result value :=
  match find (fun doc => String.eqb (dumps doc) text) other_documents with
  | Some doc => Ok doc
  | None => Raise JSONDecodeError
  end.

Definition other_json : Json :=
  {| json_loads := other_loads; json_dumps := dumps |}.

(** The arguments of a request for three days. *)
Definition january_args : list (string * value) :=
  [("from", VStr "2021-01-01"); ("to", VStr "2021-01-03")].

End Reading.

Import Reading.

(** ** The calendar: ordinals and dates *)

Module Calendar.

Lemma In_count_from (n : nat) (lo x : Z) :
  In x (count_from lo n) <-> lo <= x < lo + Z.of_nat n.
Proof.
  revert lo. induction n as [|n IH]; intros lo; cbn [count_from In].
  - lia.
  - rewrite IH. lia.
Qed.

Lemma In_range (lo hi n : Z) : In n (range lo hi) <-> lo <= n < hi.
Proof. unfold range. rewrite In_count_from. lia. Qed.

Lemma days_before_year_mono (y1 y2 : Z) :
  y1 <= y2 -> _days_before_year y1 <= _days_before_year y2.
Proof. unfold _days_before_year. intros H. Z.div_mod_to_equations. lia. Qed.

Lemma days_before_year_succ (y : Z) :
  _days_before_year (y + 1) =
  _days_before_year y + 365 + (if _is_leap y then 1 else 0).
Proof.
  unfold _days_before_year, _is_leap.
  replace (y + 1 - 1) with y by lia.
  destruct (Z.eqb_spec (y mod 4) 0), (Z.eqb_spec (y mod 100) 0),
    (Z.eqb_spec (y mod 400) 0); cbn [andb orb negb];
    Z.div_mod_to_equations; lia.
Qed.

Lemma days_in_month_bounds (y m : Z) :
  1 <= m <= 12 -> 28 <= _days_in_month y m <= 31.
Proof.
  intros H. unfold _days_in_month.
  assert (m = 1 \/ m = 2 \/ m = 3 \/ m = 4 \/ m = 5 \/ m = 6 \/ m = 7
          \/ m = 8 \/ m = 9 \/ m = 10 \/ m = 11 \/ m = 12) as Hm by lia.
  destruct (_is_leap y);
    repeat (destruct Hm as [-> | Hm]; [cbn; lia|]); subst; cbn; lia.
Qed.

(** The days of a year before a month, and the month itself, fit in the
    year. *)
Lemma month_fits_year (y m : Z) :
  1 <= m <= 12 ->
  0 <= _days_before_month y m /\
  _days_before_month y m + _days_in_month y m
  <= 365 + (if _is_leap y then 1 else 0).
Proof.
  intros H. unfold _days_before_month, _days_in_month.
  assert (m = 1 \/ m = 2 \/ m = 3 \/ m = 4 \/ m = 5 \/ m = 6 \/ m = 7
          \/ m = 8 \/ m = 9 \/ m = 10 \/ m = 11 \/ m = 12) as Hm by lia.
  destruct (_is_leap y);
    repeat (destruct Hm as [-> | Hm]; [cbn; lia|]); subst; cbn; lia.
Qed.

Lemma valid_date_spec (d : date) :
  valid_date d = true <->
  1 <= year d <= 9999 /\ 1 <= month d <= 12
  /\ 1 <= day d <= _days_in_month (year d) (month d).
Proof. unfold valid_date, MINYEAR, MAXYEAR. lia. Qed.

(** Every offset of a year, leap or not, checked. *)
Lemma year_offsets :
  forallb (check_month_day false) (range 0 365)
  && forallb (check_month_day true) (range 0 366) = true.
Proof. vm_compute. reflexivity. Qed.

(** The year [_ord2ymd] finds, from the 400-, 100-, 4- and 1-year cycles. *)
Lemma split_year (N : Z) :
  let n400 := N / _DI400Y in
  let r := N mod _DI400Y in
  let n100 := r / _DI100Y in
  let r1 := r mod _DI100Y in
  let n4 := r1 / _DI4Y in
  let r2 := r1 mod _DI4Y in
  let n1 := r2 / 365 in
  let r3 := r2 mod 365 in
  let y := n400 * 400 + 1 + (n100 * 100 + n4 * 4 + n1) in
  0 <= r3 < 365
  /\ (n1 = 4 \/ n100 = 4 -> _days_before_year y = N + 1)
  /\ (n1 <> 4 -> n100 <> 4 ->
      _days_before_year y + r3 = N
      /\ _is_leap y = (n1 =? 3) && (negb (n4 =? 24) || (n100 =? 3))).
Proof.
  cbv zeta. unfold _DI400Y, _DI100Y, _DI4Y, _days_before_year, _is_leap.
  set (n400 := N / 146097). set (r := N mod 146097).
  set (n100 := r / 36524). set (r1 := r mod 36524).
  set (n4 := r1 / 1461). set (r2 := r1 mod 1461).
  set (n1 := r2 / 365). set (r3 := r2 mod 365).
  assert (N = 146097 * n400 + r /\ 0 <= r < 146097) as [E0 B0]
      by (subst n400 r; Z.div_mod_to_equations; lia).
  assert (r = 36524 * n100 + r1 /\ 0 <= r1 < 36524) as [E1 B1]
      by (subst n100 r1; Z.div_mod_to_equations; lia).
  assert (r1 = 1461 * n4 + r2 /\ 0 <= r2 < 1461) as [E2 B2]
      by (subst n4 r2; Z.div_mod_to_equations; lia).
  assert (r2 = 365 * n1 + r3 /\ 0 <= r3 < 365) as [E3 B3]
      by (subst n1 r3; Z.div_mod_to_equations; lia).
  clearbody n400 r n100 r1 n4 r2 n1 r3.
  assert (0 <= n100 <= 4 /\ 0 <= n4 <= 24 /\ 0 <= n1 <= 4) as (B4 & B5 & B6)
      by lia.
  replace (n400 * 400 + 1 + (n100 * 100 + n4 * 4 + n1) - 1)
    with (400 * n400 + 100 * n100 + 4 * n4 + n1) by lia.
  split; [assumption|]. split.
  - intros H. Z.div_mod_to_equations. lia.
  - intros H1 H2. split.
    + Z.div_mod_to_equations. lia.
    + destruct (Z.eqb_spec n1 3), (Z.eqb_spec n4 24), (Z.eqb_spec n100 3);
        cbn [andb orb negb];
        repeat match goal with
               | |- context [?a mod ?b =? 0] =>
                   destruct (Z.eqb_spec (a mod b) 0)
               end; cbn [andb orb negb]; try reflexivity;
        exfalso; Z.div_mod_to_equations; lia.
Qed.

Lemma month_day_spec (leapyear : bool) (n : Z) :
  0 <= n < 365 ->
  let '(m, d) := month_day leapyear n in
  1 <= m <= 12
  /\ 1 <= d <= (if (m =? 2) && leapyear then 29 else _DAYS_IN_MONTH m)
  /\ _DAYS_BEFORE_MONTH m + (if (2 <? m) && leapyear then 1 else 0) + d
     = n + 1.
Proof.
  intros Hn. pose proof year_offsets as H. apply andb_prop in H.
  destruct H as [H0 H1].
  assert (check_month_day leapyear n = true) as Hc.
  { destruct leapyear.
    - apply (proj1 (forallb_forall _ _) H1). apply In_range. lia.
    - apply (proj1 (forallb_forall _ _) H0). apply In_range. lia. }
  unfold check_month_day in Hc. destruct (month_day leapyear n) as [m d].
  lia.
Qed.

(** [_ord2ymd] inverts [_ymd2ord]. *)
Lemma ord2ymd_spec (n : Z) :
  let '(y, m, d) := _ord2ymd n in
  1 <= m <= 12 /\ 1 <= d <= _days_in_month y m /\ _ymd2ord y m d = n.
Proof.
  pose proof (split_year (n - 1)) as H. cbv zeta in H.
  destruct H as (Hr3 & Hlast & Hin).
  assert (_ord2ymd n =
          let N := n - 1 in
          let n100 := N mod _DI400Y / _DI100Y in
          let n4 := (N mod _DI400Y) mod _DI100Y / _DI4Y in
          let r2 := ((N mod _DI400Y) mod _DI100Y) mod _DI4Y in
          let y := N / _DI400Y * 400 + 1 + (n100 * 100 + n4 * 4 + r2 / 365) in
          if (r2 / 365 =? 4) || (n100 =? 4) then (y - 1, 12, 31)
          else
            let '(m, d) :=
              month_day ((r2 / 365 =? 3) && (negb (n4 =? 24) || (n100 =? 3)))
                (r2 mod 365) in
            (y, m, d)) as ->.
  { unfold _ord2ymd, month_day. cbv zeta.
    repeat match goal with
           | |- context [if ?b then _ else _] => destruct b
           end; reflexivity. }
  cbv zeta.
  set (N := n - 1) in *.
  set (n100 := N mod _DI400Y / _DI100Y) in *.
  set (n4 := (N mod _DI400Y) mod _DI100Y / _DI4Y) in *.
  set (r2 := ((N mod _DI400Y) mod _DI100Y) mod _DI4Y) in *.
  set (n1 := r2 / 365) in *. set (r3 := r2 mod 365) in *.
  set (y := N / _DI400Y * 400 + 1 + (n100 * 100 + n4 * 4 + n1)) in *.
  destruct (Z.eqb_spec n1 4) as [E1|E1]; cbn [orb].
  - specialize (Hlast (or_introl E1)).
    pose proof (days_before_year_succ (y - 1)) as Hs.
    replace (y - 1 + 1) with y in Hs by lia.
    unfold _ymd2ord, _days_in_month, _days_before_month.
    cbn -[Z.add Z.sub _is_leap _days_before_year].
    destruct (_is_leap (y - 1)); cbn; lia.
  - destruct (Z.eqb_spec n100 4) as [E2|E2].
    + specialize (Hlast (or_intror E2)).
      pose proof (days_before_year_succ (y - 1)) as Hs.
      replace (y - 1 + 1) with y in Hs by lia.
      unfold _ymd2ord, _days_in_month, _days_before_month.
      cbn -[Z.add Z.sub _is_leap _days_before_year].
      destruct (_is_leap (y - 1)); cbn; lia.
    + destruct (Hin E1 E2) as [Hd Hl]. rewrite <- Hl.
      pose proof (month_day_spec (_is_leap y) r3 Hr3) as Hm.
      destruct (month_day (_is_leap y) r3) as [m d].
      unfold _ymd2ord, _days_in_month, _days_before_month. lia.
Qed.

(** A valid date lies between the first day of its year and the first day
    of the next. *)
Lemma ymd2ord_in_year (y m d : Z) :
  1 <= m <= 12 -> 1 <= d <= _days_in_month y m ->
  _days_before_year y < _ymd2ord y m d <= _days_before_year (y + 1).
Proof.
  intros Hm Hd. unfold _ymd2ord.
  rewrite days_before_year_succ.
  pose proof (month_fits_year y m Hm). lia.
Qed.

Lemma toordinal_range (d : date) :
  valid_date d = true -> 1 <= toordinal d <= _MAXORDINAL.
Proof.
  rewrite valid_date_spec. intros (Hy & Hm & Hd). unfold toordinal.
  pose proof (ymd2ord_in_year _ _ _ Hm Hd).
  pose proof (days_before_year_mono 1 (year d) ltac:(lia)).
  pose proof (days_before_year_mono (year d + 1) 10000 ltac:(lia)).
  change (_days_before_year 1) with 0 in *.
  change (_days_before_year 10000) with _MAXORDINAL in *. lia.
Qed.

Lemma toordinal_fromordinal (n : Z) :
  1 <= n <= _MAXORDINAL ->
  valid_date (fromordinal n) = true /\ toordinal (fromordinal n) = n.
Proof.
  intros Hn. unfold fromordinal, toordinal.
  pose proof (ord2ymd_spec n) as H.
  destruct (_ord2ymd n) as [[y m] d]. destruct H as (Hm & Hd & Ho).
  cbn [year month day]. split; [|assumption].
  apply valid_date_spec. cbn [year month day].
  pose proof (ymd2ord_in_year y m d Hm Hd) as Hy.
  repeat split; try lia.
  - destruct (Z_le_gt_dec 1 y) as [|Hsmall]; [assumption|]. exfalso.
    pose proof (days_before_year_mono (y + 1) 1 ltac:(lia)).
    change (_days_before_year 1) with 0 in *. lia.
  - destruct (Z_le_gt_dec y 9999) as [|Hbig]; [assumption|]. exfalso.
    pose proof (days_before_year_mono 10000 y ltac:(lia)).
    change (_days_before_year 10000) with _MAXORDINAL in *. lia.
Qed.

Lemma date_eqb_eq (a b : date) : date_eqb a b = true <-> a = b.
Proof.
  destruct a, b. unfold date_eqb. cbn [year month day]. split.
  - intros H. f_equal; lia.
  - intros [= -> -> ->]. rewrite !Z.eqb_refl. reflexivity.
Qed.

(** The order of the fields is the order of the ordinals. *)
Lemma date_ltb_lt (a b : date) :
  valid_date a = true -> valid_date b = true ->
  date_ltb a b = true -> toordinal a < toordinal b.
Proof.
  rewrite !valid_date_spec. intros (Hya & Hma & Hda) (Hyb & Hmb & Hdb) Hlt.
  unfold toordinal. destruct a as [ya ma da], b as [yb mb db].
  cbn [year month day] in *. unfold date_ltb in Hlt. cbn [year month day] in Hlt.
  pose proof (ymd2ord_in_year _ _ _ Hma Hda).
  pose proof (ymd2ord_in_year _ _ _ Hmb Hdb).
  destruct (Z.ltb_spec ya yb).
  - pose proof (days_before_year_mono (ya + 1) yb ltac:(lia)). lia.
  - assert (ya = yb) by lia. subst yb.
    destruct (Z.ltb_spec ma mb).
    + unfold _ymd2ord. 
      enough (_days_before_month ya ma + _days_in_month ya ma
              <= _days_before_month ya mb) by lia.
      clear - Hma Hmb H2. unfold _days_before_month, _days_in_month.
      assert (ma = 1 \/ ma = 2 \/ ma = 3 \/ ma = 4 \/ ma = 5 \/ ma = 6
              \/ ma = 7 \/ ma = 8 \/ ma = 9 \/ ma = 10 \/ ma = 11
              \/ ma = 12) as Ha by lia.
      assert (mb = 1 \/ mb = 2 \/ mb = 3 \/ mb = 4 \/ mb = 5 \/ mb = 6
              \/ mb = 7 \/ mb = 8 \/ mb = 9 \/ mb = 10 \/ mb = 11
              \/ mb = 12) as Hb by lia.
      destruct (_is_leap ya);
        repeat (destruct Ha as [-> | Ha]);
        repeat (destruct Hb as [-> | Hb]); subst; cbn; lia.
    + assert (ma = mb) by lia. subst mb. unfold _ymd2ord. lia.
Qed.

Lemma date_trichotomy (a b : date) :
  date_ltb a b = true \/ a = b \/ date_ltb b a = true.
Proof.
  destruct a as [ya ma da], b as [yb mb db]. unfold date_ltb.
  cbn [year month day].
  destruct (Z.lt_total ya yb) as [|[->|]]; [left; lia| |right; right; lia].
  destruct (Z.lt_total ma mb) as [|[->|]]; [left; lia| |right; right; lia].
  destruct (Z.lt_total da db) as [|[->|]]; [left; lia| |right; right; lia].
  right; left; reflexivity.
Qed.

Lemma toordinal_inj (a b : date) :
  valid_date a = true -> valid_date b = true ->
  toordinal a = toordinal b -> a = b.
Proof.
  intros Ha Hb E.
  destruct (date_trichotomy a b) as [H | [H | H]]; [|assumption|].
  - pose proof (date_ltb_lt a b Ha Hb H). lia.
  - pose proof (date_ltb_lt b a Hb Ha H). lia.
Qed.

Lemma fromordinal_toordinal (d : date) :
  valid_date d = true -> fromordinal (toordinal d) = d.
Proof.
  intros Hv.
  destruct (toordinal_fromordinal (toordinal d) (toordinal_range d Hv))
    as [Hv' Ho].
  now apply toordinal_inj.
Qed.

Lemma date_ltb_toordinal (a b : date) :
  valid_date a = true -> valid_date b = true ->
  date_ltb a b = (toordinal a <? toordinal b).
Proof.
  intros Ha Hb.
  destruct (date_trichotomy a b) as [H | [-> | H]].
  - rewrite H. pose proof (date_ltb_lt a b Ha Hb H). lia.
  - rewrite Z.ltb_irrefl. destruct b as [y m d]. unfold date_ltb.
    cbn [year month day]. lia.
  - pose proof (date_ltb_lt b a Hb Ha H).
    destruct (date_ltb a b) eqn:E.
    + pose proof (date_ltb_lt a b Ha Hb E). lia.
    + lia.
Qed.

End Calendar.

Import Calendar.

Module DateFacts.

Lemma tomorrow_toordinal (d : date) :
  valid_date d = true -> toordinal (tomorrow d) = toordinal d + 1.
Proof.
  rewrite valid_date_spec. intros (Hy & Hm & Hd).
  destruct d as [y m d]. unfold tomorrow, toordinal.
  cbn [year month day] in *.
  destruct (Z.ltb_spec d (_days_in_month y m)); cbn [year month day].
  - unfold _ymd2ord. lia.
  - assert (d = _days_in_month y m) as -> by lia.
    destruct (Z.ltb_spec m 12); cbn [year month day].
    + unfold _ymd2ord, _days_before_month, _days_in_month.
      assert (m = 1 \/ m = 2 \/ m = 3 \/ m = 4 \/ m = 5 \/ m = 6 \/ m = 7
              \/ m = 8 \/ m = 9 \/ m = 10 \/ m = 11) as Hc by lia.
      destruct (_is_leap y);
        repeat (destruct Hc as [-> | Hc]; [cbn; lia|]); subst; cbn; lia.
    + assert (m = 12) as -> by lia.
      unfold _ymd2ord. rewrite days_before_year_succ.
      unfold _days_before_month, _days_in_month.
      destruct (_is_leap y); cbn; lia.
Qed.

Lemma tomorrow_valid (d : date) :
  valid_date d = true -> d <> date_max -> valid_date (tomorrow d) = true.
Proof.
  intros Hv Hmax. pose proof Hv as Hv'.
  rewrite valid_date_spec in Hv'. destruct Hv' as (Hy & Hm & Hd).
  destruct d as [y m d]. unfold tomorrow. cbn [year month day] in *.
  apply valid_date_spec.
  destruct (Z.ltb_spec d (_days_in_month y m)); cbn [year month day].
  - lia.
  - destruct (Z.ltb_spec m 12); cbn [year month day].
    + pose proof (days_in_month_bounds y (m + 1) ltac:(lia)). lia.
    + assert (m = 12) as -> by lia.
      assert (d = 31) as ->
          by (unfold _days_in_month in *; cbn in *; lia).
      assert (y <> 9999) by (intros ->; apply Hmax; reflexivity).
      unfold _days_in_month. cbn. lia.
Qed.

Lemma toordinal_max : toordinal date_max = _MAXORDINAL.
Proof. reflexivity. Qed.

(** Adding a day: the next calendar day, or an overflow at [date_max]. *)
Lemma add_days_one (d : date) :
  valid_date d = true ->
  add_days d 1 =
  if date_eqb d date_max then Raise OverflowError else Ok (tomorrow d).
Proof.
  intros Hv. unfold add_days.
  pose proof (toordinal_range d Hv) as Hr.
  destruct (date_eqb d date_max) eqn:E.
  - apply date_eqb_eq in E. subst d. rewrite toordinal_max.
    reflexivity.
  - assert (d <> date_max) as Hne
        by (intros ->; now rewrite (proj2 (date_eqb_eq _ _) eq_refl) in E).
    assert (toordinal d <> _MAXORDINAL) as Hlt.
    { intros Ho. apply Hne. apply toordinal_inj; [assumption|reflexivity|].
      now rewrite toordinal_max. }
    replace ((0 <? toordinal d + 1) && (toordinal d + 1 <=? _MAXORDINAL))
      with true by lia.
    f_equal. rewrite <- (tomorrow_toordinal d Hv).
    apply fromordinal_toordinal. now apply tomorrow_valid.
Qed.

Lemma date_new_valid (y m d : Z) (dt : date) :
  date_new y m d = Ok dt -> valid_date dt = true.
Proof.
  unfold date_new. destruct (valid_date (mkdate y m d)) eqn:E; [|discriminate].
  now intros [= <-].
Qed.

Lemma strptime_valid (s : string) (d : date) :
  strptime s = Ok d -> valid_date d = true.
Proof.
  unfold strptime.
  destruct (format_regex_match s) as [[[[y m] dd] rest]|]; [|discriminate].
  destruct (String.length rest =? 0)%nat; [|discriminate].
  apply date_new_valid.
Qed.

End DateFacts.

Import DateFacts.

Module LoopFacts.

Lemma for_append_map {A B : Type} (f : A -> result B) (g : A -> B)
    (l : list A) :
  (forall x, In x l -> f x = Ok (g x)) -> for_append f l = Ok (map g l).
Proof.
  induction l as [|x l IH]; intros H; cbn [for_append map].
  - reflexivity.
  - rewrite (H x (or_introl eq_refl)), IH; [reflexivity|].
    intros y Hy. apply H. now right.
Qed.

Lemma count_from_length (n : nat) (lo : Z) :
  List.length (count_from lo n) = n.
Proof.
  revert lo. induction n as [|n IH]; intros lo; cbn [count_from List.length].
  - reflexivity.
  - now rewrite IH.
Qed.

Lemma range_length (lo hi : Z) :
  lo <= hi -> Z.of_nat (List.length (range lo hi)) = hi - lo.
Proof. intros H. unfold range. rewrite count_from_length. lia. Qed.

Lemma count_from_sorted (n : nat) (lo : Z) :
  StronglySorted Z.lt (count_from lo n).
Proof.
  revert lo. induction n as [|n IH]; intros lo; cbn [count_from].
  - constructor.
  - constructor; [apply IH|].
    apply Forall_forall. intros x Hx. apply In_count_from in Hx. lia.
Qed.

Lemma sorted_map {A B : Type} (R : A -> A -> Prop) (R' : B -> B -> Prop)
    (f : A -> B) (l : list A) :
  (forall x y, In x l -> In y l -> R x y -> R' (f x) (f y)) ->
  StronglySorted R l -> StronglySorted R' (map f l).
Proof.
  intros Hf Hs. induction Hs as [|x l Hs IH Hx]; cbn [map].
  - constructor.
  - constructor.
    + apply IH. intros a b Ha Hb. apply Hf; now right.
    + apply Forall_forall. intros y Hy. apply in_map_iff in Hy.
      destruct Hy as (z & <- & Hz). apply Hf; [now left|now right|].
      rewrite Forall_forall in Hx. now apply Hx.
Qed.

Lemma count_from_last (n : nat) (lo : Z) :
  count_from lo (S n) = (count_from lo n ++ [lo + Z.of_nat n])%list.
Proof.
  revert lo. induction n as [|n IH]; intros lo.
  - cbn. f_equal. lia.
  - change (count_from lo (S (S n)))
      with (lo :: count_from (lo + 1) (S n)).
    rewrite IH. cbn [count_from app].
    replace (lo + 1 + Z.of_nat n) with (lo + Z.of_nat (S n)) by lia.
    reflexivity.
Qed.

End LoopFacts.

Import LoopFacts.

Module DaysBack.

(** The walk of [get_days]: [n + 1] dates from [hi] back to the date [n]
    days before it. *)
Section Walk.

Variables (hi : date) (n : Z).
Hypothesis Hhi : valid_date hi = true.
Hypothesis Hn : 0 <= n.
Hypothesis Hlo : 1 <= toordinal hi - n.

Lemma days_back_length : Z.of_nat (List.length (days_back hi n)) = n + 1.
Proof.
  unfold days_back. rewrite length_map, range_length; lia.
Qed.

Lemma days_back_ordinal (i : Z) :
  0 <= i <= n ->
  valid_date (fromordinal (toordinal hi - i)) = true
  /\ toordinal (fromordinal (toordinal hi - i)) = toordinal hi - i.
Proof.
  intros Hi. apply toordinal_fromordinal.
  pose proof (toordinal_range hi Hhi). lia.
Qed.

Lemma days_back_head : hd_error (days_back hi n) = Some hi.
Proof.
  unfold days_back, range.
  replace (Z.to_nat (n + 1 - 0)) with (S (Z.to_nat n)) by lia.
  cbn [count_from map hd_error]. rewrite Z.sub_0_r.
  now rewrite fromordinal_toordinal.
Qed.

Lemma days_back_last (d : date) :
  last (days_back hi n) d = fromordinal (toordinal hi - n).
Proof.
  unfold days_back, range.
  replace (Z.to_nat (n + 1 - 0)) with (S (Z.to_nat n)) by lia.
  rewrite count_from_last, map_app. cbn [map]. rewrite last_last.
  f_equal. lia.
Qed.

Lemma days_back_In (d : date) :
  In d (days_back hi n) <->
  valid_date d = true /\ toordinal hi - n <= toordinal d <= toordinal hi.
Proof.
  unfold days_back. rewrite in_map_iff. split.
  - intros (i & <- & Hi). apply In_range in Hi.
    destruct (days_back_ordinal i ltac:(lia)) as [Hv Ho].
    rewrite Ho. split; [assumption|lia].
  - intros (Hv & Ho). exists (toordinal hi - toordinal d). split.
    + replace (toordinal hi - (toordinal hi - toordinal d))
        with (toordinal d) by lia.
      now apply fromordinal_toordinal.
    + apply In_range. lia.
Qed.

Lemma days_back_sorted :
  StronglySorted (fun x y => date_ltb y x = true) (days_back hi n).
Proof.
  unfold days_back.
  apply sorted_map with (R := Z.lt); [|apply count_from_sorted].
  intros i j Hi Hj Hij. apply In_range in Hi, Hj.
  destruct (days_back_ordinal i ltac:(lia)) as [Hvi Hoi].
  destruct (days_back_ordinal j ltac:(lia)) as [Hvj Hoj].
  rewrite date_ltb_toordinal by assumption. lia.
Qed.

End Walk.

End DaysBack.

Import DaysBack.

(** ** Properties of the helpers *)

Module Properties.

Section WithPlatform.

Context {C : CLib} {J : Json}.

(** *** [get_days] *)

Lemma get_days_unparsed (from_date to_date : string) :
  raises (strptime from_date) || raises (strptime to_date) = true ->
  get_days from_date to_date = Ok None.
Proof.
  unfold get_days.
  destruct (strptime from_date) as [s|]; [|reflexivity].
  destruct (strptime to_date) as [e|]; [|reflexivity].
  discriminate.
Qed.

Lemma get_days_parsed (from_date to_date : string) (s e : date) :
  strptime from_date = Ok s -> strptime to_date = Ok e ->
  get_days from_date to_date =
  if date_eqb s e then Ok (Some [from_date])
  else
    let hi := if sub_days e s <? 0 then s else e in
    Ok (Some (map strftime (days_back hi (Z.abs (sub_days e s))))).
Proof.
  intros Hs He. unfold get_days. rewrite Hs, He. cbn [bind].
  destruct (date_eqb s e); [reflexivity|].
  pose proof (toordinal_range s (strptime_valid _ _ Hs)) as Rs.
  pose proof (toordinal_range e (strptime_valid _ _ He)) as Re.
  cbv zeta. unfold sub_days in *.
  assert (forall hi n,
             1 <= toordinal hi - n -> toordinal hi <= _MAXORDINAL -> 0 <= n ->
             for_append
               (fun i => new_date <- add_days hi (- i);;
                         Ok (strftime new_date))
               (range 0 (n + 1))
             = Ok (map strftime (days_back hi n))) as Hloop.
  { intros hi n H1 H2 H3. unfold days_back. rewrite map_map.
    apply for_append_map. intros i Hi. apply In_range in Hi.
    unfold add_days.
    replace ((0 <? toordinal hi + - i)
             && (toordinal hi + - i <=? _MAXORDINAL)) with true by lia.
    reflexivity. }
  destruct (Z.ltb_spec (toordinal e - toordinal s) 0).
  - rewrite Hloop by lia. reflexivity.
  - rewrite Hloop by lia. rewrite Z.abs_eq by lia. reflexivity.
Qed.

Lemma date_eqb_neq (a b : date) : date_eqb a b = false <-> a <> b.
Proof.
  rewrite <- date_eqb_eq. destruct (date_eqb a b); split; congruence.
Qed.

Lemma date_leb_toordinal (a b : date) :
  valid_date a = true -> valid_date b = true ->
  date_leb a b = (toordinal a <=? toordinal b).
Proof.
  intros Ha Hb. unfold date_leb. rewrite date_ltb_toordinal by assumption.
  destruct (date_eqb a b) eqn:E.
  - apply date_eqb_eq in E. subst. lia.
  - apply date_eqb_neq in E.
    assert (toordinal a <> toordinal b)
      by (intros H; apply E; now apply toordinal_inj).
    lia.
Qed.

(** On two distinct days the walk starts at the later one and is as long
    as the days between them. *)
Lemma get_days_distinct (from_date to_date : string) (s e : date) :
  strptime from_date = Ok s -> strptime to_date = Ok e -> s <> e ->
  get_days from_date to_date =
  Ok (Some (map strftime
              (days_back (later s e) (Z.abs (toordinal e - toordinal s)))))
  /\ toordinal (later s e) - Z.abs (toordinal e - toordinal s)
     = toordinal (earlier s e).
Proof.
  intros Hs He Hne.
  pose proof (strptime_valid _ _ Hs) as Vs.
  pose proof (strptime_valid _ _ He) as Ve.
  rewrite (get_days_parsed _ _ _ _ Hs He).
  rewrite (proj2 (date_eqb_neq s e) Hne). cbv zeta.
  unfold later, earlier, sub_days.
  rewrite (date_ltb_toordinal s e Vs Ve).
  assert (toordinal s <> toordinal e)
    by (intros H; apply Hne; now apply toordinal_inj).
  destruct (Z.ltb_spec (toordinal s) (toordinal e)),
    (Z.ltb_spec (toordinal e - toordinal s) 0); try lia;
    (split; [reflexivity|lia]).
Qed.

Lemma get_days_returns (from_date to_date : string) (s e : date) :
  strptime from_date = Ok s -> strptime to_date = Ok e ->
  exists dates, get_days from_date to_date = Ok (Some dates).
Proof.
  intros Hs He. rewrite (get_days_parsed _ _ _ _ Hs He).
  destruct (date_eqb s e); eexists; reflexivity.
Qed.

(** The list covers every day of the range, in the rendering of
    [strftime]; a single day is covered as [from_date] writes it. *)
Lemma get_days_covers (from_date to_date : string) (s e : date) :
  strptime from_date = Ok s -> strptime to_date = Ok e ->
  date_leb s e = true ->
  (s = e -> from_date = strftime s) ->
  exists dates,
    get_days from_date to_date = Ok (Some dates)
    /\ forall d, valid_date d = true -> date_leb s d = true ->
                 date_leb d e = true -> In (strftime d) dates.
Proof.
  intros Hs He Hle Hcanon.
  pose proof (strptime_valid _ _ Hs) as Vs.
  pose proof (strptime_valid _ _ He) as Ve.
  destruct (date_eqb s e) eqn:E.
  - exists [from_date]. rewrite (get_days_parsed _ _ _ _ Hs He), E.
    split; [reflexivity|].
    apply date_eqb_eq in E. subst e.
    intros d Vd H1 H2. left. rewrite (Hcanon eq_refl). f_equal.
    rewrite date_leb_toordinal in H1, H2 by assumption.
    apply toordinal_inj; [assumption..|lia].
  - apply date_eqb_neq in E.
    destruct (get_days_distinct _ _ _ _ Hs He E) as [Hg Hlo].
    eexists. split; [exact Hg|].
    intros d Vd H1 H2. apply in_map.
    rewrite date_leb_toordinal in H1, H2, Hle by assumption.
    assert (later s e = e) as Hhi.
    { unfold later. rewrite date_ltb_toordinal by assumption.
      assert (toordinal s <> toordinal e)
        by (intros H; apply E; now apply toordinal_inj).
      now replace (toordinal s <? toordinal e) with true by lia. }
    rewrite Hhi in *.
    pose proof (toordinal_range s Vs).
    apply days_back_In; try assumption; try lia.
    split; [assumption|lia].
Qed.

(** C2: on two valid date strings that denote distinct days, [get_days]
    returns the renderings of all the calendar dates from the later of the
    two down to the earlier, both included, in descending order; swapping
    the arguments gives the same list. *)
Theorem get_days_descending (from_date to_date : string) (s e : date) :
  strptime from_date = Ok s -> strptime to_date = Ok e -> s <> e ->
  exists ds : list date,
    get_days from_date to_date = Ok (Some (map strftime ds))
    /\ hd_error ds = Some (later s e)
    /\ last ds (later s e) = earlier s e
    /\ (forall d, In d ds <->
                  valid_date d = true
                  /\ date_leb (earlier s e) d = true
                  /\ date_leb d (later s e) = true)
    /\ StronglySorted (fun x y => date_ltb y x = true) ds
    /\ get_days to_date from_date = get_days from_date to_date.
Proof.
  intros Hs He Hne.
  pose proof (strptime_valid _ _ Hs) as Vs.
  pose proof (strptime_valid _ _ He) as Ve.
  destruct (get_days_distinct _ _ _ _ Hs He Hne) as [Hg Hlo].
  destruct (get_days_distinct _ _ _ _ He Hs (not_eq_sym Hne)) as [Hg' _].
  set (n := Z.abs (toordinal e - toordinal s)) in *.
  assert (valid_date (later s e) = true) as Vhi
      by (unfold later; now destruct (date_ltb s e)).
  assert (valid_date (earlier s e) = true) as Vlo
      by (unfold earlier; now destruct (date_ltb s e)).
  assert (0 <= n) as Hn by (subst n; lia).
  assert (1 <= toordinal (later s e) - n) as H1
      by (rewrite Hlo; apply toordinal_range; assumption).
  exists (days_back (later s e) n). repeat split.
  - exact Hg.
  - now apply days_back_head.
  - rewrite days_back_last by assumption. rewrite Hlo.
    now apply fromordinal_toordinal.
  - now apply days_back_In in H.
  - apply days_back_In in H; [|assumption..]. destruct H as [Vd Hd].
    rewrite date_leb_toordinal by assumption. lia.
  - apply days_back_In in H; [|assumption..]. destruct H as [Vd Hd].
    rewrite date_leb_toordinal by assumption. lia.
  - intros (Vd & Hd1 & Hd2). apply days_back_In; [assumption..|].
    rewrite date_leb_toordinal in Hd1, Hd2 by assumption.
    split; [assumption|lia].
  - now apply days_back_sorted.
  - rewrite Hg, Hg'. subst n.
    replace (later e s) with (later s e).
    + now rewrite <- Z.abs_opp, Z.opp_sub_distr, Z.add_comm, Z.add_opp_r.
    + unfold later. rewrite !date_ltb_toordinal by assumption.
      assert (toordinal s <> toordinal e)
        by (intros H; apply Hne; now apply toordinal_inj).
      destruct (Z.ltb_spec (toordinal s) (toordinal e)),
        (Z.ltb_spec (toordinal e) (toordinal s)); try lia; reflexivity.
Qed.

(** C6: on two valid date strings, the list [get_days] returns has as many
    elements as there are days between the two dates, plus one; when the
    two denote the same day it is the one-element list of [from_date]. *)
Theorem get_days_length (from_date to_date : string) (s e : date) :
  strptime from_date = Ok s -> strptime to_date = Ok e ->
  exists l : list string,
    get_days from_date to_date = Ok (Some l)
    /\ Z.of_nat (List.length l) = Z.abs (sub_days e s) + 1
    /\ (s = e -> l = [from_date]).
Proof.
  intros Hs He.
  destruct (date_eqb s e) eqn:E.
  - rewrite (get_days_parsed _ _ _ _ Hs He), E.
    apply date_eqb_eq in E. subst e.
    exists [from_date]. unfold sub_days. cbn [List.length].
    repeat split. lia.
  - apply date_eqb_neq in E.
    destruct (get_days_distinct _ _ _ _ Hs He E) as [Hg Hlo].
    eexists. split; [exact Hg|]. split; [|contradiction].
    rewrite length_map. unfold sub_days.
    apply days_back_length. lia.
Qed.

(** C7: when both strings parse to the same day, [get_days] returns the
    one-element list holding [from_date] itself, as it was given. *)
Theorem get_days_same_day (from_date to_date : string) (d : date) :
  strptime from_date = Ok d -> strptime to_date = Ok d ->
  get_days from_date to_date = Ok (Some [from_date]).
Proof.
  intros Hs He. rewrite (get_days_parsed _ _ _ _ Hs He).
  now rewrite (proj2 (date_eqb_eq d d) eq_refl).
Qed.

(** *** [normalize_date_range] *)

Lemma normalize_date_range_unparsed (from_date to_date : string) :
  raises (strptime from_date) || raises (strptime to_date) = true ->
  normalize_date_range from_date to_date = Ok None.
Proof.
  unfold normalize_date_range.
  destruct (strptime from_date) as [s|]; [|reflexivity].
  destruct (strptime to_date) as [e|]; [|reflexivity].
  discriminate.
Qed.

Lemma normalize_date_range_parsed (from_date to_date : string) (s e : date) :
  strptime from_date = Ok s -> strptime to_date = Ok e ->
  normalize_date_range from_date to_date =
  if date_eqb e date_max then Raise OverflowError
  else Ok (Some (strftime s, strftime (tomorrow e))).
Proof.
  intros Hs He. unfold normalize_date_range. rewrite Hs, He. cbn [bind].
  rewrite (add_days_one e (strptime_valid _ _ He)).
  now destruct (date_eqb e date_max).
Qed.

(** C4, amended: on two valid date strings, [normalize_date_range] returns
    the rendering of [from_date] paired with the rendering of the calendar
    day after [to_date], whatever the order of the two dates, unless
    [to_date] is 9999-12-31, the last day a datetime can hold: then the
    addition overflows and the exception reaches the caller. *)
Theorem normalize_date_range_next_day (from_date to_date : string)
    (s e : date) :
  strptime from_date = Ok s -> strptime to_date = Ok e ->
  (e <> date_max ->
   normalize_date_range from_date to_date =
   Ok (Some (strftime s, strftime (tomorrow e)))
   /\ valid_date (tomorrow e) = true
   /\ sub_days (tomorrow e) e = 1)
  /\ (e = date_max ->
      normalize_date_range from_date to_date = Raise OverflowError).
Proof.
  intros Hs He. rewrite (normalize_date_range_parsed _ _ _ _ Hs He).
  pose proof (strptime_valid _ _ He) as Ve.
  split.
  - intros Hne. rewrite (proj2 (date_eqb_neq _ _) Hne).
    split; [reflexivity|]. split; [now apply tomorrow_valid|].
    unfold sub_days. rewrite tomorrow_toordinal by assumption. lia.
  - intros ->. reflexivity.
Qed.

(** C10, amended: on a valid date string [d] given twice,
    [normalize_date_range] returns a pair, as it does for distinct dates:
    the rendering of [d] and the rendering of the day after; it is not the
    one-element answer of [get_days].  The first component is the rendering
    of the date, which is [d] itself only when [d] is written that way.
    For 9999-12-31 the addition overflows. *)
Theorem normalize_date_range_same_day (d : string) (dt : date) :
  strptime d = Ok dt ->
  (dt <> date_max ->
   normalize_date_range d d =
   Ok (Some (strftime dt, strftime (tomorrow dt)))
   /\ (d = strftime dt ->
       normalize_date_range d d = Ok (Some (d, strftime (tomorrow dt)))))
  /\ (dt = date_max -> normalize_date_range d d = Raise OverflowError)
  /\ get_days d d = Ok (Some [d]).
Proof.
  intros Hd. rewrite (normalize_date_range_parsed _ _ _ _ Hd Hd).
  split; [|split].
  - intros Hne. rewrite (proj2 (date_eqb_neq _ _) Hne).
    split; [reflexivity|]. intros E. now rewrite <- E.
  - intros ->. reflexivity.
  - rewrite (get_days_parsed _ _ _ _ Hd Hd).
    now rewrite (proj2 (date_eqb_eq dt dt) eq_refl).
Qed.

(** *** [is_valid_args] *)

Lemma is_valid_args_true (args : value) :
  is_valid_args args = true <->
  truth args = true
  /\ exists from_date to_date,
      getitem args "from" = Ok from_date
      /\ getitem args "to" = Ok to_date
      /\ raises (strptime_obj from_date) = false
      /\ raises (strptime_obj to_date) = false.
Proof.
  unfold is_valid_args. destruct (truth args).
  2:{ split; [discriminate|]. now intros [? _]. }
  destruct (getitem args "from") as [f|ef]; cbn [bind].
  2:{ split; [discriminate|]. intros (_ & ? & ? & ? & _). discriminate. }
  destruct (getitem args "to") as [t|et]; cbn [bind].
  2:{ split; [discriminate|]. intros (_ & ? & ? & _ & ? & _). discriminate. }
  destruct (strptime_obj f) as [df|] eqn:Ef; cbn [bind].
  2:{ split; [discriminate|].
      intros (_ & ? & ? & [= <-] & _ & H & _).
      rewrite Ef in H. discriminate. }
  destruct (strptime_obj t) as [dt|] eqn:Et.
  - split; [|reflexivity]. intros _. split; [reflexivity|].
    exists f, t. rewrite Ef, Et. now repeat split.
  - split; [discriminate|].
    intros (_ & ? & ? & _ & [= <-] & _ & H). rewrite Et in H. discriminate.
Qed.

(** C8: when either argument fails to parse, [get_days] and
    [normalize_date_range] return [None] and raise nothing; and
    [is_valid_args], which returns a boolean on every object, returns
    [False] when its argument is empty, lacks "from" or "to", or holds a
    value that fails to parse. *)
Theorem unparsed_input_is_absorbed (from_date to_date : string)
    (args : value) :
  (raises (strptime from_date) || raises (strptime to_date) = true ->
   get_days from_date to_date = Ok None
   /\ normalize_date_range from_date to_date = Ok None)
  /\ (truth args = false
      \/ raises (getitem args "from") = true
      \/ raises (getitem args "to") = true
      \/ (exists v, getitem args "from" = Ok v
                    /\ raises (strptime_obj v) = true)
      \/ (exists v, getitem args "to" = Ok v
                    /\ raises (strptime_obj v) = true) ->
      is_valid_args args = false).
Proof.
  split.
  - intros H. split.
    + now apply get_days_unparsed.
    + now apply normalize_date_range_unparsed.
  - intros H. destruct (is_valid_args args) eqn:E; [|reflexivity].
    apply is_valid_args_true in E.
    destruct E as (Ht & f & t & Hf & Hto & Pf & Pt).
    destruct H as [H | [H | [H | [(v & Hv & Hr) | (v & Hv & Hr)]]]].
    + congruence.
    + rewrite Hf in H. discriminate.
    + rewrite Hto in H. discriminate.
    + rewrite Hf in Hv. injection Hv as <-. congruence.
    + rewrite Hto in Hv. injection Hv as <-. congruence.
Qed.

(** *** Dictionaries *)

Lemma dict_get_set_same (key : string) (v : value)
    (items : list (string * value)) :
  dict_get key (dict_set key v items) = Some v.
Proof.
  induction items as [|[k w] items IH]; cbn [dict_set dict_get].
  - now rewrite String.eqb_refl.
  - destruct (String.eqb k key) eqn:E; cbn [dict_get]; now rewrite E.
Qed.

Lemma dict_get_set_other (key k : string) (v : value)
    (items : list (string * value)) :
  k <> key -> dict_get k (dict_set key v items) = dict_get k items.
Proof.
  intros Hk.
  induction items as [|[k' w] items IH]; cbn [dict_set dict_get].
  - destruct (String.eqb_spec key k); [congruence|reflexivity].
  - destruct (String.eqb_spec k' key) as [->|]; cbn [dict_get].
    + destruct (String.eqb_spec key k); [congruence|reflexivity].
    + now rewrite IH.
Qed.

Lemma dict_set_keys (key : string) (v w : value)
    (items : list (string * value)) :
  dict_get key items = Some w ->
  map fst (dict_set key v items) = map fst items.
Proof.
  induction items as [|[k' w'] items IH]; cbn [dict_set dict_get].
  - discriminate.
  - destruct (String.eqb k' key); cbn [map fst]; [reflexivity|].
    intros H. now rewrite IH.
Qed.

Lemma dict_set_same (key : string) (v : value)
    (items : list (string * value)) :
  dict_get key items = Some v -> dict_set key v items = items.
Proof.
  induction items as [|[k' w'] items IH]; cbn [dict_set dict_get].
  - discriminate.
  - destruct (String.eqb k' key).
    + now intros [= ->].
    + intros H. now rewrite IH.
Qed.

(** *** [get_timeline_slice] *)

Lemma comprehension_filter (cond : value -> result bool)
    (p : value -> bool) (l : list value) :
  (forall x, In x l -> cond x = Ok (p x)) ->
  comprehension cond l = Ok (filter p l).
Proof.
  induction l as [|x l IH]; intros H; cbn [comprehension filter].
  - reflexivity.
  - rewrite (H x (or_introl eq_refl)), IH; [reflexivity|].
    intros y Hy. apply H. now right.
Qed.

Lemma filter_Subseq {A : Type} (p : A -> bool) (l : list A) :
  Subseq (filter p l) l.
Proof.
  induction l as [|x l IH]; cbn [filter].
  - constructor.
  - destruct (p x); now constructor.
Qed.

Lemma filter_all {A : Type} (p : A -> bool) (l : list A) :
  (forall x, In x l -> p x = true) -> filter p l = l.
Proof.
  induction l as [|x l IH]; intros H; cbn [filter].
  - reflexivity.
  - rewrite (H x (or_introl eq_refl)), IH; [reflexivity|].
    intros y Hy. apply H. now right.
Qed.

Lemma wanted_In (dates : list string) (r : value) :
  wanted dates r = true <-> In (date_prefix r) dates.
Proof.
  unfold wanted. rewrite existsb_exists. split.
  - intros (d & Hd & E). apply String.eqb_eq in E. now subst.
  - intros H. exists (date_prefix r). split; [assumption|].
    apply String.eqb_refl.
Qed.

(** The condition of the comprehension, on a record. *)
Lemma record_condition (dates_list : option (list string)) (r : value) :
  is_record r = true ->
  (timestamp <- getitem r "timestamp";;
   prefix <- slice_to timestamp 10;;
   contains dates_list prefix)
  = match dates_list with
    | Some dates => Ok (wanted dates r)
    | None => Raise TypeError
    end.
Proof.
  unfold is_record, wanted, date_prefix.
  destruct r as [| | | | | |items]; try discriminate.
  cbn [getitem]. destruct (dict_get "timestamp" items) as [[| | | |ts| |]|];
    try discriminate.
  intros _. cbn [bind slice_to]. now destruct dates_list.
Qed.

Lemma get_timeline_slice_records (records : list value)
    (dates : list string) :
  forallb is_record records = true ->
  get_timeline_slice (VList records) (Some dates)
  = Ok (filter (wanted dates) records).
Proof.
  intros H. unfold get_timeline_slice. cbn [iter bind].
  apply comprehension_filter. intros r Hr.
  rewrite forallb_forall in H.
  now rewrite (record_condition (Some dates) r (H r Hr)).
Qed.

Lemma get_timeline_slice_no_dates (records : list value) :
  forallb is_record records = true ->
  get_timeline_slice (VList records) None
  = match records with
    | [] => Ok []
    | _ :: _ => Raise TypeError
    end.
Proof.
  intros H. unfold get_timeline_slice. cbn [iter bind].
  destruct records as [|r records]; [reflexivity|].
  cbn [forallb] in H. apply andb_prop in H. destruct H as [Hr _].
  cbn [comprehension]. now rewrite (record_condition None r Hr).
Qed.

(** C3: on a sequence of records and a list of date strings,
    [get_timeline_slice] keeps exactly the records whose timestamp starts
    with one of the dates: the result is the input filtered, so its records
    are records of the input, unchanged and in their original order, and
    it is no longer than the input. *)
Theorem get_timeline_slice_filter (records : list value)
    (dates : list string) :
  forallb is_record records = true ->
  exists kept : list value,
    get_timeline_slice (VList records) (Some dates) = Ok kept
    /\ kept = filter (wanted dates) records
    /\ (forall r, In r kept <-> In r records /\ In (date_prefix r) dates)
    /\ Subseq kept records
    /\ (List.length kept <= List.length records)%nat.
Proof.
  intros H. exists (filter (wanted dates) records).
  split; [now apply get_timeline_slice_records|].
  split; [reflexivity|]. split; [|split].
  - intros r. rewrite filter_In, wanted_In. reflexivity.
  - apply filter_Subseq.
  - apply filter_length_le.
Qed.

(** *** [get_json_slice] *)

(** The envelope of the wire contract: an object whose "timeline" is an
    array of records. *)
Lemma get_json_slice_envelope (timeline from_date to_date : string)
    (env : list (string * value)) (records : list value)
    (dates : option (list string)) :
  json_loads timeline = Ok (VDict env) ->
  dict_get "timeline" env = Some (VList records) ->
  forallb is_record records = true ->
  get_days from_date to_date = Ok dates ->
  get_json_slice timeline from_date to_date =
  match dates, records with
  | Some dates, _ =>
      Ok (json_dumps
            (VDict (dict_set "timeline"
                      (VList (filter (wanted dates) records)) env)))
  | None, [] => Ok (json_dumps (VDict (dict_set "timeline" (VList []) env)))
  | None, _ :: _ => Raise TypeError
  end.
Proof.
  intros Hl Ht Hr Hd. unfold get_json_slice.
  rewrite Hd, Hl. cbn [bind getitem]. rewrite Ht. cbn [bind].
  destruct dates as [dates|].
  - rewrite (get_timeline_slice_records _ _ Hr). reflexivity.
  - rewrite (get_timeline_slice_no_dates _ Hr).
    now destruct records.
Qed.

(** C1, amended: on an envelope whose timeline is a sequence of records,
    when either date fails to parse, [get_json_slice] returns the
    re-encoded envelope with an empty timeline if the timeline was empty,
    and raises [TypeError] to its caller if the timeline holds a record:
    the membership test runs against [None]. *)
Theorem get_json_slice_unparsed_dates (timeline from_date to_date : string)
    (env : list (string * value)) (records : list value) :
  json_loads timeline = Ok (VDict env) ->
  dict_get "timeline" env = Some (VList records) ->
  forallb is_record records = true ->
  raises (strptime from_date) || raises (strptime to_date) = true ->
  get_json_slice timeline from_date to_date =
  match records with
  | [] => Ok (json_dumps (VDict (dict_set "timeline" (VList []) env)))
  | _ :: _ => Raise TypeError
  end.
Proof.
  intros Hl Ht Hr Hp.
  now rewrite (get_json_slice_envelope _ _ _ _ _ None Hl Ht Hr
                 (get_days_unparsed _ _ Hp)).
Qed.

(** C9: on an envelope and two valid date strings, [get_json_slice]
    returns the encoding of the envelope with its "timeline" replaced by
    the slice: the keys and their order are those of the envelope and every
    other key holds the value it held. *)
Theorem get_json_slice_frame (timeline from_date to_date : string)
    (env : list (string * value)) (records : list value) (s e : date) :
  json_loads timeline = Ok (VDict env) ->
  dict_get "timeline" env = Some (VList records) ->
  forallb is_record records = true ->
  strptime from_date = Ok s -> strptime to_date = Ok e ->
  exists (kept : list value) (env' : list (string * value)),
    get_json_slice timeline from_date to_date = Ok (json_dumps (VDict env'))
    /\ dict_get "timeline" env' = Some (VList kept)
    /\ map fst env' = map fst env
    /\ (forall key, key <> "timeline" -> dict_get key env' = dict_get key env).
Proof.
  intros Hl Ht Hr Hs He.
  destruct (get_days_returns _ _ _ _ Hs He) as (dates & Hd).
  exists (filter (wanted dates) records).
  exists (dict_set "timeline" (VList (filter (wanted dates) records)) env).
  split; [|split; [|split]].
  - now rewrite (get_json_slice_envelope _ _ _ _ _ _ Hl Ht Hr Hd).
  - apply dict_get_set_same.
  - now apply dict_set_keys with (w := VList records).
  - intros key Hk. now apply dict_get_set_other.
Qed.

(** C5, amended: on an envelope whose records carry, as the first 10
    characters of their timestamps, the renderings of dates between
    [from_date] and [to_date], [get_json_slice] returns the encoding of the
    envelope as it was decoded, timeline included, provided [from_date] is
    itself written as [strftime] renders it when the two dates are the same
    day. *)
Theorem get_json_slice_full_range (timeline from_date to_date : string)
    (env : list (string * value)) (records : list value) (s e : date) :
  json_loads timeline = Ok (VDict env) ->
  dict_get "timeline" env = Some (VList records) ->
  strptime from_date = Ok s -> strptime to_date = Ok e ->
  date_leb s e = true ->
  (s = e -> from_date = strftime s) ->
  (forall r, In r records ->
     is_record r = true
     /\ exists d, valid_date d = true
                  /\ date_leb s d = true /\ date_leb d e = true
                  /\ date_prefix r = strftime d) ->
  get_json_slice timeline from_date to_date = Ok (json_dumps (VDict env)).
Proof.
  intros Hl Ht Hs He Hle Hcanon Hrec.
  assert (forallb is_record records = true) as Hr
      by (apply forallb_forall; intros r Hin; now apply Hrec).
  destruct (get_days_covers _ _ _ _ Hs He Hle Hcanon) as (dates & Hd & Hall).
  rewrite (get_json_slice_envelope _ _ _ _ _ _ Hl Ht Hr Hd).
  rewrite filter_all.
  - now rewrite dict_set_same.
  - intros r Hin. destruct (Hrec r Hin) as (_ & d & Vd & H1 & H2 & Hp).
    apply wanted_In. rewrite Hp. now apply Hall.
Qed.

End WithPlatform.

End Properties.

Import Properties.

(** ** Reading back what [strftime] writes *)

Module ReadBack.

Lemma map_flat_map {A B D : Type} (g : B -> D) (f : A -> list B)
    (l : list A) :
  map g (flat_map f l) = flat_map (fun x => map g (f x)) l.
Proof.
  induction l as [|x l IH]; cbn [flat_map map].
  - reflexivity.
  - now rewrite map_app, IH.
Qed.

Lemma format_regex_match_split (s : string) :
  format_regex_match s =
  hd_error
    (flat_map (fun '(y, s1) =>
                 map (fun '(m, d, r) => (y, m, d, r)) (month_day_match s1))
       (re_Y s)).
Proof.
  unfold format_regex_match, month_day_match. f_equal.
  apply flat_map_ext. intros [y s1].
  rewrite map_flat_map. apply flat_map_ext. intros [[] s2].
  rewrite map_flat_map. apply flat_map_ext. intros [m s3].
  rewrite map_flat_map. apply flat_map_ext. intros [[] s4].
  rewrite map_map. apply map_ext. now intros [d s5].
Qed.

Lemma digit_val_char (n : Z) :
  digit_val (digit_char n) = Some (n mod 10).
Proof.
  unfold digit_val, digit_char.
  assert (0 <= n mod 10 < 10) as Hn by (apply Z.mod_pos_bound; lia).
  rewrite N_ascii_embedding by lia.
  rewrite Z2N.id by lia.
  replace ((48 <=? 48 + n mod 10) && (48 + n mod 10 <=? 57)) with true
    by lia.
  f_equal. lia.
Qed.

Lemma re_Y_zfill4 (y : Z) (rest : string) :
  0 <= y <= 9999 -> re_Y (zfill4 y ++ rest) = [(y, rest)].
Proof.
  intros Hy. unfold zfill4, zfill2, re_Y. cbn [append].
  rewrite !digit_val_char. repeat f_equal.
  Z.div_mod_to_equations. lia.
Qed.

Lemma two_digits_checked :
  forallb (fun m => forallb (check_two_digits m) (range 1 32)) (range 1 13)
  = true.
Proof. vm_compute. reflexivity. Qed.

Lemma month_day_match_two_digits (m d : Z) :
  1 <= m <= 12 -> 1 <= d <= 31 ->
  exists rest more,
    month_day_match (String "-" (zfill2 m ++ String "-" (zfill2 d)))
    = (m, d, rest) :: more
    /\ String.length rest = 0%nat.
Proof.
  intros Hm Hd.
  pose proof (proj1 (forallb_forall _ _) two_digits_checked m) as H.
  rewrite In_range in H. specialize (H ltac:(lia)).
  pose proof (proj1 (forallb_forall _ _) H d) as H'.
  rewrite In_range in H'. specialize (H' ltac:(lia)).
  unfold check_two_digits in H'.
  destruct (month_day_match _) as [|[[m' d'] rest] more]; [discriminate|].
  exists rest, more.
  apply andb_prop in H'. destruct H' as [H1 H3].
  apply andb_prop in H1. destruct H1 as [H1 H2].
  apply Z.eqb_eq in H1, H2. apply Nat.eqb_eq in H3. subst. now split.
Qed.

(** A date written with a four-digit year reads back as itself. *)
Lemma strptime_strftime {C : CLib} (d : date) :
  valid_date d = true ->
  strftime_Y (year d) = zfill4 (year d) ->
  strptime (strftime d) = Ok d.
Proof.
  intros Hv Hy. pose proof Hv as Hv'.
  rewrite valid_date_spec in Hv'. destruct Hv' as (By & Bm & Bd).
  pose proof (days_in_month_bounds (year d) (month d) Bm) as Bdim.
  unfold strptime, strftime. rewrite Hy, format_regex_match_split.
  change ("-" ++ zfill2 (month d) ++ "-" ++ zfill2 (day d))
    with (String "-" (zfill2 (month d) ++ String "-" (zfill2 (day d)))).
  rewrite re_Y_zfill4 by lia. cbn [flat_map].
  destruct (month_day_match_two_digits (month d) (day d) Bm ltac:(lia))
    as (rest & more & -> & Hlen).
  cbn [map app hd_error]. rewrite Hlen. cbn [Nat.eqb].
  unfold date_new. destruct d as [y m dd]. cbn [year month day] in *.
  now rewrite Hv.
Qed.

End ReadBack.

Import ReadBack.

(** ** Further properties of the helpers *)

Module More.

Section WithPlatform.

Context {C : CLib} {J : Json}.

(** *** Dates *)

Lemma date_leb_refl (d : date) : date_leb d d = true.
Proof.
  unfold date_leb. rewrite (proj2 (date_eqb_eq d d) eq_refl).
  apply orb_true_r.
Qed.

Lemma date_leb_year (a b : date) :
  date_leb a b = true -> year a <= year b.
Proof.
  unfold date_leb, date_ltb, date_eqb. destruct a, b.
  cbn [year month day]. lia.
Qed.

Lemma later_earlier_same (d : date) : later d d = d /\ earlier d d = d.
Proof. unfold later, earlier. now destruct (date_ltb d d). Qed.

(** X1: [get_days] raises on no pair of strings; it returns [None] exactly
    when one of them fails to parse. *)
Theorem get_days_never_raises (from_date to_date : string) :
  exists r : option (list string),
    get_days from_date to_date = Ok r
    /\ (r = None <->
        raises (strptime from_date) || raises (strptime to_date) = true).
Proof.
  destruct (strptime from_date) as [s|] eqn:Hs.
  - destruct (strptime to_date) as [e|] eqn:He.
    + rewrite (get_days_parsed _ _ _ _ Hs He).
      destruct (date_eqb s e); eexists; (split; [reflexivity|]);
        split; discriminate.
    + exists None. rewrite get_days_unparsed by (rewrite Hs, He; reflexivity).
      now repeat split.
  - exists None. rewrite get_days_unparsed by (rewrite Hs; reflexivity).
    now repeat split.
Qed.

(** X2: [is_valid_args] accepts exactly the non-empty mappings whose "from"
    and "to" are both strings that parse; a value of another type under
    either key is refused like a missing key. *)
Theorem is_valid_args_exactly (args : value) :
  is_valid_args args = true <->
  exists items from_date to_date s e,
    args = VDict items
    /\ dict_get "from" items = Some (VStr from_date)
    /\ dict_get "to" items = Some (VStr to_date)
    /\ strptime from_date = Ok s /\ strptime to_date = Ok e.
Proof.
  rewrite is_valid_args_true. split.
  - intros (Ht & f & t & Hf & Hto & Pf & Pt).
    destruct args as [| | | | | |items]; try discriminate.
    cbn [getitem] in Hf, Hto.
    destruct (dict_get "from" items) as [f'|] eqn:Ef; [|discriminate].
    destruct (dict_get "to" items) as [t'|] eqn:Et; [|discriminate].
    injection Hf as ->. injection Hto as ->.
    destruct f as [| | | |a| |]; try discriminate.
    destruct t as [| | | |b| |]; try discriminate.
    cbn [strptime_obj] in Pf, Pt.
    destruct (strptime a) as [s|] eqn:Hs; [|discriminate].
    destruct (strptime b) as [e|] eqn:He; [|discriminate].
    now exists items, a, b, s, e.
  - intros (items & a & b & s & e & -> & Hf & Hto & Hs & He). split.
    + destruct items; [discriminate|reflexivity].
    + exists (VStr a), (VStr b). cbn [getitem strptime_obj].
      rewrite Hf, Hto, Hs, He. now repeat split.
Qed.

(** X3: the check and the helpers agree: on a mapping that holds two
    strings, [is_valid_args] accepts exactly when [get_days] returns a
    list, and refuses exactly when [normalize_date_range] returns
    [None]. *)
Theorem is_valid_args_agrees (items : list (string * value))
    (from_date to_date : string) :
  dict_get "from" items = Some (VStr from_date) ->
  dict_get "to" items = Some (VStr to_date) ->
  (is_valid_args (VDict items) = true <->
   exists l, get_days from_date to_date = Ok (Some l))
  /\ (is_valid_args (VDict items) = false <->
      normalize_date_range from_date to_date = Ok None).
Proof.
  intros Hf Hto.
  assert (is_valid_args (VDict items)
          = negb (raises (strptime from_date) || raises (strptime to_date)))
    as ->.
  { unfold is_valid_args. cbn [getitem]. rewrite Hf, Hto. cbn [bind].
    replace (truth (VDict items)) with true
      by (destruct items; [discriminate|reflexivity]).
    cbn [strptime_obj].
    destruct (strptime from_date); [|reflexivity].
    now destruct (strptime to_date). }
  destruct (strptime from_date) as [s|] eqn:Hs.
  - destruct (strptime to_date) as [e|] eqn:He.
    + rewrite (get_days_parsed _ _ _ _ Hs He).
      rewrite (normalize_date_range_parsed _ _ _ _ Hs He).
      cbn [raises orb negb]. split.
      * split; [intros _|reflexivity].
        destruct (date_eqb s e); eexists; reflexivity.
      * split; [discriminate|]. now destruct (date_eqb e date_max).
    + rewrite get_days_unparsed, normalize_date_range_unparsed
        by (rewrite Hs, He; reflexivity).
      cbn [raises orb negb]. split; split; try reflexivity; try discriminate.
      intros (l & [=]).
  - rewrite get_days_unparsed, normalize_date_range_unparsed
      by (rewrite Hs; reflexivity).
    cbn [raises orb negb]. split; split; try reflexivity; try discriminate.
    intros (l & [=]).
Qed.

(** X4: [normalize_date_range] raises exactly when both strings parse and
    [to_date] is 9999-12-31, and what it raises is [OverflowError]. *)
Theorem normalize_date_range_raises_only_at_max
    (from_date to_date : string) :
  (raises (normalize_date_range from_date to_date) = true <->
   exists s, strptime from_date = Ok s /\ strptime to_date = Ok date_max)
  /\ (forall err, normalize_date_range from_date to_date = Raise err ->
                  err = OverflowError).
Proof.
  destruct (strptime from_date) as [s|] eqn:Hs.
  - destruct (strptime to_date) as [e|] eqn:He.
    + rewrite (normalize_date_range_parsed _ _ _ _ Hs He).
      destruct (date_eqb e date_max) eqn:E.
      * apply date_eqb_eq in E. subst e. split.
        -- split; [intros _; now exists s|reflexivity].
        -- now intros err [= <-].
      * apply date_eqb_neq in E. split.
        -- split; [discriminate|]. intros (s' & _ & [= ->]). now elim E.
        -- discriminate.
    + rewrite normalize_date_range_unparsed by (rewrite Hs, He; reflexivity).
      split; [|discriminate]. split; [discriminate|].
      intros (? & _ & [=]).
  - rewrite normalize_date_range_unparsed by (rewrite Hs; reflexivity).
    split; [|discriminate]. split; [discriminate|].
    intros (? & [=] & _).
Qed.

(** X5: when the platform writes the years of the range with four digits,
    every string of the list [get_days] returns parses again, to a date
    between the two dates given. *)
Theorem get_days_reads_back (from_date to_date : string) (s e : date) :
  strptime from_date = Ok s -> strptime to_date = Ok e ->
  (forall y, year (earlier s e) <= y <= year (later s e) ->
             strftime_Y y = zfill4 y) ->
  exists l : list string,
    get_days from_date to_date = Ok (Some l)
    /\ forall x, In x l ->
         exists d, strptime x = Ok d
                   /\ date_leb (earlier s e) d = true
                   /\ date_leb d (later s e) = true.
Proof.
  intros Hs He Hfmt.
  pose proof (strptime_valid _ _ Hs) as Vs.
  pose proof (strptime_valid _ _ He) as Ve.
  destruct (date_eqb s e) eqn:E.
  - rewrite (get_days_parsed _ _ _ _ Hs He), E.
    apply date_eqb_eq in E. subst e.
    exists [from_date]. split; [reflexivity|].
    intros x [<- | []]. exists s.
    destruct (later_earlier_same s) as [-> ->].
    now rewrite date_leb_refl.
  - apply date_eqb_neq in E.
    destruct (get_days_distinct _ _ _ _ Hs He E) as [Hg Hlo].
    eexists. split; [exact Hg|].
    assert (valid_date (later s e) = true) as Vhi
        by (unfold later; now destruct (date_ltb s e)).
    assert (valid_date (earlier s e) = true) as Vlo
        by (unfold earlier; now destruct (date_ltb s e)).
    pose proof (toordinal_range _ Vlo) as Rlo.
    intros x Hx. apply in_map_iff in Hx. destruct Hx as (d & <- & Hd).
    apply days_back_In in Hd; try assumption; try lia.
    destruct Hd as [Vd Hd]. rewrite Hlo in Hd.
    assert (date_leb (earlier s e) d = true) as L1
        by (rewrite date_leb_toordinal by assumption; lia).
    assert (date_leb d (later s e) = true) as L2
        by (rewrite date_leb_toordinal by assumption; lia).
    exists d. split; [|now split].
    apply strptime_strftime; [assumption|].
    apply Hfmt. split; now apply date_leb_year.
Qed.

(** X6: when the platform writes the two years with four digits, the two
    strings [normalize_date_range] returns parse again, to the date of
    [from_date] and to the day after [to_date]; giving the first back as
    [from_date] changes nothing. *)
Theorem normalize_date_range_reads_back (from_date to_date : string)
    (s e : date) :
  strptime from_date = Ok s -> strptime to_date = Ok e ->
  e <> date_max ->
  strftime_Y (year s) = zfill4 (year s) ->
  strftime_Y (year (tomorrow e)) = zfill4 (year (tomorrow e)) ->
  exists start_date end_date : string,
    normalize_date_range from_date to_date
    = Ok (Some (start_date, end_date))
    /\ strptime start_date = Ok s
    /\ strptime end_date = Ok (tomorrow e)
    /\ normalize_date_range start_date to_date
       = normalize_date_range from_date to_date.
Proof.
  intros Hs He Hmax Hy1 Hy2.
  pose proof (strptime_valid _ _ Hs) as Vs.
  pose proof (strptime_valid _ _ He) as Ve.
  pose proof (strptime_strftime s Vs Hy1) as Rs.
  pose proof (strptime_strftime (tomorrow e) (tomorrow_valid e Ve Hmax) Hy2)
    as Re.
  exists (strftime s), (strftime (tomorrow e)).
  rewrite (normalize_date_range_parsed _ _ _ _ Hs He).
  rewrite (normalize_date_range_parsed _ _ _ _ Rs He).
  rewrite (proj2 (date_eqb_neq _ _) Hmax). now repeat split.
Qed.

(** X7: the two helpers describe the same days: for [from_date] before
    [to_date], the dates [get_days] lists are exactly the valid dates from
    the first component of [normalize_date_range] up to, and not
    including, the second. *)
Theorem get_days_is_the_half_open_range (from_date to_date : string)
    (s e : date) :
  strptime from_date = Ok s -> strptime to_date = Ok e ->
  date_ltb s e = true -> e <> date_max ->
  exists ds : list date,
    get_days from_date to_date = Ok (Some (map strftime ds))
    /\ normalize_date_range from_date to_date
       = Ok (Some (strftime s, strftime (tomorrow e)))
    /\ forall d, valid_date d = true ->
         (In d ds <->
          date_leb s d = true /\ date_ltb d (tomorrow e) = true).
Proof.
  intros Hs He Hlt Hmax.
  pose proof (strptime_valid _ _ Hs) as Vs.
  pose proof (strptime_valid _ _ He) as Ve.
  assert (s <> e) as Hne.
  { intros ->. destruct e. unfold date_ltb in Hlt.
    cbn [year month day] in Hlt. lia. }
  destruct (get_days_distinct _ _ _ _ Hs He Hne) as [Hg Hlo].
  unfold later, earlier in Hg, Hlo. rewrite Hlt in Hg, Hlo.
  eexists. split; [exact Hg|]. split.
  - rewrite (normalize_date_range_parsed _ _ _ _ Hs He).
    now rewrite (proj2 (date_eqb_neq _ _) Hmax).
  - intros d Vd.
    pose proof (toordinal_range s Vs) as Rs.
    pose proof (tomorrow_valid e Ve Hmax) as Vt.
    rewrite days_back_In; try assumption; try lia.
    rewrite date_leb_toordinal, date_ltb_toordinal by assumption.
    rewrite tomorrow_toordinal by assumption. rewrite Hlo.
    split; [intros [_ H]|intros H; split; [assumption|]]; lia.
Qed.

(** X13: [get_days] gives the same list with its arguments swapped exactly
    when the two days differ or the two strings are the same: one day
    written in two ways comes back as the first argument is written. *)
Theorem get_days_swap (from_date to_date : string) (s e : date) :
  strptime from_date = Ok s -> strptime to_date = Ok e ->
  (get_days to_date from_date = get_days from_date to_date <->
   s <> e \/ from_date = to_date).
Proof.
  intros Hs He.
  destruct (date_eqb s e) eqn:E.
  - apply date_eqb_eq in E. subst e.
    rewrite (get_days_parsed _ _ _ _ Hs He), (get_days_parsed _ _ _ _ He Hs).
    rewrite (proj2 (date_eqb_eq s s) eq_refl). split.
    + intros [= ->]. now right.
    + intros [H | ->]; [now elim H|reflexivity].
  - apply date_eqb_neq in E. split; [intros _; now left|intros _].
    pose proof (strptime_valid _ _ Hs) as Vs.
    pose proof (strptime_valid _ _ He) as Ve.
    destruct (get_days_distinct _ _ _ _ Hs He E) as [-> _].
    destruct (get_days_distinct _ _ _ _ He Hs (not_eq_sym E)) as [-> _].
    replace (later e s) with (later s e).
    + now rewrite <- Z.abs_opp, Z.opp_sub_distr, Z.add_comm, Z.add_opp_r.
    + unfold later. rewrite !date_ltb_toordinal by assumption.
      assert (toordinal s <> toordinal e)
        by (intros H; apply E; now apply toordinal_inj).
      destruct (Z.ltb_spec (toordinal s) (toordinal e)),
        (Z.ltb_spec (toordinal e) (toordinal s)); try lia; reflexivity.
Qed.

Lemma count_from_app (n1 n2 : nat) (lo : Z) :
  count_from lo (n1 + n2)
  = (count_from lo n1 ++ count_from (lo + Z.of_nat n1) n2)%list.
Proof.
  revert lo. induction n1 as [|n1 IH]; intros lo.
  - cbn [Nat.add count_from app]. f_equal. lia.
  - cbn [Nat.add count_from app]. rewrite IH. do 3 f_equal. lia.
Qed.

Lemma count_from_shift (n : nat) (lo k : Z) :
  map (fun i => i + k) (count_from lo n) = count_from (lo + k) n.
Proof.
  revert lo. induction n as [|n IH]; intros lo; cbn [count_from map].
  - reflexivity.
  - rewrite IH. do 2 f_equal. lia.
Qed.

(** X16: ranges that meet compose: for three days in order, the list for
    the whole range is the list for the later part followed by the list
    for the earlier part without its first string, the day they share. *)
Theorem get_days_split (first middle last : string) (s m e : date) :
  strptime first = Ok s -> strptime middle = Ok m -> strptime last = Ok e ->
  date_ltb s m = true -> date_ltb m e = true ->
  exists (later_part earlier_part : list string) (shared : string),
    get_days middle last = Ok (Some later_part)
    /\ get_days first middle = Ok (Some (shared :: earlier_part))
    /\ get_days first last = Ok (Some (later_part ++ earlier_part)%list).
Proof.
  intros Hs Hm He Hsm Hme.
  pose proof (strptime_valid _ _ Hs) as Vs.
  pose proof (strptime_valid _ _ Hm) as Vm.
  pose proof (strptime_valid _ _ He) as Ve.
  pose proof Hsm as Osm. pose proof Hme as Ome.
  rewrite date_ltb_toordinal in Osm, Ome by assumption.
  assert (date_ltb s e = true) as Hse
      by (rewrite date_ltb_toordinal by assumption; lia).
  assert (forall a b : date, date_ltb a b = true -> a <> b) as Hneq.
  { intros a b H ->. destruct b. unfold date_ltb in H.
    cbn [year month day] in H. lia. }
  destruct (get_days_distinct _ _ _ _ Hm He (Hneq _ _ Hme)) as [G1 _].
  destruct (get_days_distinct _ _ _ _ Hs Hm (Hneq _ _ Hsm)) as [G2 _].
  destruct (get_days_distinct _ _ _ _ Hs He (Hneq _ _ Hse)) as [G3 _].
  unfold later in G1, G2, G3. rewrite Hme in G1. rewrite Hsm in G2.
  rewrite Hse in G3.
  rewrite Z.abs_eq in G1, G2, G3 by lia.
  set (k1 := toordinal e - toordinal m) in *.
  set (k2 := toordinal m - toordinal s) in *.
  unfold days_back, range in G1, G2, G3.
  replace (Z.to_nat (k2 + 1 - 0)) with (S (Z.to_nat k2)) in G2 by lia.
  cbn [count_from map] in G2.
  replace (Z.to_nat (toordinal e - toordinal s + 1 - 0))
    with (Z.to_nat (k1 + 1 - 0) + Z.to_nat k2)%nat in G3 by lia.
  rewrite count_from_app, !map_app in G3.
  do 3 eexists. split; [exact G1|]. split; [exact G2|].
  rewrite G3. do 3 f_equal.
  replace (0 + Z.of_nat (Z.to_nat (k1 + 1 - 0))) with (0 + 1 + k1) by lia.
  rewrite <- count_from_shift, !map_map.
  apply map_ext. intros i. do 2 f_equal. lia.
Qed.

(** *** Timelines *)

Lemma comprehension_app_raise (cond : value -> result bool)
    (p : value -> bool) (good : list value) (bad : value)
    (rest : list value) (err : exn) :
  (forall x, In x good -> cond x = Ok (p x)) ->
  cond bad = Raise err ->
  comprehension cond (good ++ bad :: rest) = Raise err.
Proof.
  intros Hgood Hbad. induction good as [|x good IH]; cbn [app comprehension].
  - now rewrite Hbad.
  - rewrite (Hgood x (or_introl eq_refl)), IH; [reflexivity|].
    intros y Hy. apply Hgood. now right.
Qed.

Lemma filter_records (p : value -> bool) (records : list value) :
  forallb is_record records = true ->
  forallb is_record (filter p records) = true.
Proof.
  rewrite !forallb_forall. intros H r Hr. apply filter_In in Hr.
  now apply H.
Qed.

Lemma filter_filter {A : Type} (p q : A -> bool) (l : list A) :
  filter q (filter p l) = filter (fun x => p x && q x) l.
Proof.
  induction l as [|x l IH]; cbn [filter]; [reflexivity|].
  destruct (p x); cbn [filter andb]; [|assumption].
  destruct (q x); now rewrite IH.
Qed.

Lemma filter_none {A : Type} (p : A -> bool) (l : list A) :
  (forall x, In x l -> p x = false) -> filter p l = [].
Proof.
  induction l as [|x l IH]; intros H; cbn [filter]; [reflexivity|].
  rewrite (H x (or_introl eq_refl)). apply IH.
  intros y Hy. apply H. now right.
Qed.

(** X8: an element that is not a record stops the slice: after any number
    of records, a [dict] without "timestamp" raises [KeyError], and an
    element that is not a [dict] raises [TypeError]; nothing is returned
    for the records before it. *)
Theorem get_timeline_slice_bad_element (good rest : list value)
    (bad : value) (dates : list string) :
  forallb is_record good = true ->
  match bad with
  | VDict items => dict_get "timestamp" items = None
  | _ => True
  end ->
  get_timeline_slice (VList (good ++ bad :: rest)) (Some dates)
  = Raise match bad with
          | VDict _ => KeyError
          | _ => TypeError
          end.
Proof.
  intros Hgood Hbad. unfold get_timeline_slice. cbn [iter bind].
  apply comprehension_app_raise with (p := wanted dates).
  - intros r Hr. rewrite forallb_forall in Hgood.
    now rewrite (record_condition (Some dates) r (Hgood r Hr)).
  - destruct bad as [| | | | | |items]; try reflexivity.
    cbn [getitem]. now rewrite Hbad.
Qed.

(** X9: slices of a sequence of records compose: slicing a slice keeps the
    records wanted by both lists of dates, in either order of the two
    lists, and slicing again by the same list changes nothing. *)
Theorem get_timeline_slice_twice (records : list value)
    (dates1 dates2 : list string) :
  forallb is_record records = true ->
  exists kept1 kept2 both : list value,
    get_timeline_slice (VList records) (Some dates1) = Ok kept1
    /\ get_timeline_slice (VList records) (Some dates2) = Ok kept2
    /\ get_timeline_slice (VList kept1) (Some dates2) = Ok both
    /\ get_timeline_slice (VList kept2) (Some dates1) = Ok both
    /\ get_timeline_slice (VList kept1) (Some dates1) = Ok kept1
    /\ (forall r, In r both <->
                  In r records /\ In (date_prefix r) dates1
                  /\ In (date_prefix r) dates2).
Proof.
  intros H.
  exists (filter (wanted dates1) records), (filter (wanted dates2) records),
    (filter (fun r => wanted dates1 r && wanted dates2 r) records).
  rewrite !get_timeline_slice_records
    by (try apply filter_records; assumption).
  rewrite !filter_filter. repeat split.
  - f_equal. apply filter_ext. intros r. apply andb_comm.
  - f_equal. apply filter_ext. intros r. now destruct (wanted dates1 r).
  - now apply filter_In in H0.
  - apply filter_In in H0. destruct H0 as [_ H0].
    apply andb_prop in H0. now apply wanted_In.
  - apply filter_In in H0. destruct H0 as [_ H0].
    apply andb_prop in H0. now apply wanted_In.
  - intros (Hr & H1 & H2). apply filter_In. split; [assumption|].
    apply andb_true_intro. now rewrite !wanted_In.
Qed.

(** X14: a timeline that is not a list is never sliced: [None], a boolean
    and a number cannot be iterated, and a [dict] or a [str] is iterated
    over keys or characters, each of which fails at "timestamp"; only the
    empty [dict] and the empty [str] give the empty slice. *)
Theorem get_timeline_slice_not_a_list (timeline : value)
    (dates_list : option (list string)) :
  (forall l, timeline <> VList l) ->
  get_timeline_slice timeline dates_list
  = if truth timeline
    || match timeline with VDict _ | VStr _ => false | _ => true end
    then Raise TypeError else Ok [].
Proof.
  intros H. unfold get_timeline_slice.
  destruct timeline as [|b|n|bits|s|l|items]; try reflexivity.
  - destruct b; reflexivity.
  - cbn [truth orb]. destruct (negb (n =? 0)); reflexivity.
  - cbn [truth orb]. destruct (negb (bits mod 2 ^ 63 =? 0)); reflexivity.
  - destruct s; reflexivity.
  - now elim (H l).
  - destruct items as [|[k v] items]; reflexivity.
Qed.

(** *** Envelopes *)

(** X10: what [get_json_slice] raises follows the shape of the document,
    whatever the two dates are: the error of the decoder for a text that
    is not JSON, [TypeError] for a document that is not an object, and
    [KeyError] for an object without "timeline". *)
Theorem get_json_slice_errors (timeline from_date to_date : string) :
  (forall err, json_loads timeline = Raise err ->
               get_json_slice timeline from_date to_date = Raise err)
  /\ (forall doc, json_loads timeline = Ok doc ->
                  (forall items, doc <> VDict items) ->
                  get_json_slice timeline from_date to_date
                  = Raise TypeError)
  /\ (forall items, json_loads timeline = Ok (VDict items) ->
                    dict_get "timeline" items = None ->
                    get_json_slice timeline from_date to_date
                    = Raise KeyError).
Proof.
  assert (exists r, get_days from_date to_date = Ok r) as [r Hr].
  { destruct (strptime from_date) as [s|] eqn:Hs.
    - destruct (strptime to_date) as [e|] eqn:He.
      + rewrite (get_days_parsed _ _ _ _ Hs He).
        destruct (date_eqb s e); eexists; reflexivity.
      + exists None. apply get_days_unparsed. now rewrite Hs, He.
    - exists None. apply get_days_unparsed. now rewrite Hs. }
  unfold get_json_slice. rewrite Hr. cbn [bind]. repeat split.
  - intros err ->. reflexivity.
  - intros doc -> Hdoc. cbn [bind].
    destruct doc; try reflexivity. now elim (Hdoc items).
  - intros items -> Hnone. cbn [bind getitem]. now rewrite Hnone.
Qed.

(** X11: on an envelope and two valid date strings, the timeline of the
    envelope [get_json_slice] returns holds exactly the records whose
    timestamp starts with one of the strings of [get_days], in the order
    they had. *)
Theorem get_json_slice_keeps (timeline from_date to_date : string)
    (env : list (string * value)) (records : list value) (s e : date) :
  json_loads timeline = Ok (VDict env) ->
  dict_get "timeline" env = Some (VList records) ->
  forallb is_record records = true ->
  strptime from_date = Ok s -> strptime to_date = Ok e ->
  exists (dates : list string) (kept : list value),
    get_days from_date to_date = Ok (Some dates)
    /\ get_json_slice timeline from_date to_date
       = Ok (json_dumps (VDict (dict_set "timeline" (VList kept) env)))
    /\ Subseq kept records
    /\ (forall r, In r kept <-> In r records /\ In (date_prefix r) dates).
Proof.
  intros Hl Ht Hr Hs He.
  destruct (get_days_returns _ _ _ _ Hs He) as (dates & Hd).
  exists dates, (filter (wanted dates) records).
  split; [assumption|]. split; [|split].
  - now rewrite (get_json_slice_envelope _ _ _ _ _ _ Hl Ht Hr Hd).
  - apply filter_Subseq.
  - intros r. now rewrite filter_In, wanted_In.
Qed.


(** X15: a request for one day written otherwise than [strftime] writes it
    selects nothing: when both strings parse to the same day, [from_date]
    is not the rendering of that day, and the records are dated by
    renderings with four-digit years, the timeline returned is empty. *)
Theorem get_json_slice_unpadded_day (timeline from_date to_date : string)
    (env : list (string * value)) (records : list value) (s : date) :
  json_loads timeline = Ok (VDict env) ->
  dict_get "timeline" env = Some (VList records) ->
  strptime from_date = Ok s -> strptime to_date = Ok s ->
  from_date <> strftime s ->
  (forall r, In r records ->
     is_record r = true
     /\ exists d, valid_date d = true
                  /\ strftime_Y (year d) = zfill4 (year d)
                  /\ date_prefix r = strftime d) ->
  get_json_slice timeline from_date to_date
  = Ok (json_dumps (VDict (dict_set "timeline" (VList []) env))).
Proof.
  intros Hl Ht Hs He Hne Hrec.
  assert (forallb is_record records = true) as Hr
      by (apply forallb_forall; intros r Hin; now apply Hrec).
  assert (get_days from_date to_date = Ok (Some [from_date])) as Hd.
  { rewrite (get_days_parsed _ _ _ _ Hs He).
    now rewrite (proj2 (date_eqb_eq s s) eq_refl). }
  rewrite (get_json_slice_envelope _ _ _ _ _ _ Hl Ht Hr Hd).
  rewrite filter_none; [reflexivity|].
  intros r Hin.
  destruct (Hrec r Hin) as (_ & d & Vd & Hy & Hp).
  destruct (wanted [from_date] r) eqn:W; [|reflexivity].
  exfalso. apply wanted_In in W. destruct W as [W | []].
  rewrite Hp in W. subst from_date.
  rewrite (strptime_strftime d Vd Hy) in Hs. injection Hs as ->.
  now apply Hne.
Qed.

End WithPlatform.

End More.

Import More.

(** ** The helpers on concrete inputs *)

Module Examples.

Example spec_get_days_one_day :
  get_days (C:=glibc) "2021-01-01" "2021-01-01" = Ok (Some ["2021-01-01"]).
Proof. reflexivity. Qed.

Example spec_get_days_three_days :
  get_days (C:=glibc) "2021-01-01" "2021-01-03"
  = Ok (Some ["2021-01-03"; "2021-01-02"; "2021-01-01"]).
Proof. reflexivity. Qed.

Example spec_get_days_bad_date :
  get_days (C:=glibc) "bad-date" "2021-01-01" = Ok None.
Proof. reflexivity. Qed.

Example spec_normalize_date_range :
  normalize_date_range (C:=glibc) "2021-01-01" "2021-01-05"
  = Ok (Some ("2021-01-01", "2021-01-06")).
Proof. reflexivity. Qed.

Example spec_is_valid_category :
  is_valid_category "sitewait" = true /\ is_valid_category "unknown" = false.
Proof. split; reflexivity. Qed.

Example spec_is_valid_args :
  is_valid_args
    (VDict [("from", VStr "2021-01-01"); ("to", VStr "2021-01-02")]) = true
  /\ is_valid_args (VDict []) = false
  /\ is_valid_args (VDict [("from", VStr "x"); ("to", VStr "2021-01-02")])
     = false.
Proof. repeat split; reflexivity. Qed.

(** The year below 1000 is where the platforms part. *)
Example strftime_small_year :
  strftime (C:=glibc) (mkdate 999 12 31) = "999-12-31"
  /\ strftime (C:=zero_filled) (mkdate 999 12 31) = "0999-12-31".
Proof. split; reflexivity. Qed.

(** C1, as stated, fails: with a date that does not parse and a timeline of
    three records, [get_json_slice] raises [TypeError]; no envelope is
    returned. *)
Lemma get_json_slice_unparsed_dates_raises :
  json_loads (Json:=json) (dumps (VDict envelope)) = Ok (VDict envelope)
  /\ dict_get "timeline" envelope = Some (VList three_days)
  /\ forallb is_record three_days = true
  /\ strptime "bad-date" = Raise ValueError
  /\ get_json_slice (C:=glibc) (J:=json)
       (dumps (VDict envelope)) "bad-date" "2021-01-01"
     = Raise TypeError.
Proof. repeat split; vm_compute; reflexivity. Qed.

Lemma get_json_slice_unparsed_dates_witness :
  get_json_slice (C:=glibc) (J:=json)
    (dumps (VDict envelope)) "2021-01-01" "2021-13-01"
  = Raise TypeError
  /\ get_json_slice (C:=glibc) (J:=json)
       (dumps (VDict no_day)) "2021-01-01" "2021-13-01"
     = Ok (dumps (VDict no_day)).
Proof.
  split.
  - apply (get_json_slice_unparsed_dates (C:=glibc) (J:=json)
             (dumps (VDict envelope)) "2021-01-01" "2021-13-01"
             envelope three_days); vm_compute; reflexivity.
  - apply (get_json_slice_unparsed_dates (C:=glibc) (J:=json)
             (dumps (VDict no_day)) "2021-01-01" "2021-13-01"
             no_day []); vm_compute; reflexivity.
Defined.

Lemma get_days_descending_witness :
  exists ds : list date,
    get_days (C:=glibc) "2021-01-03" "2021-01-01"
    = Ok (Some (map (strftime (C:=glibc)) ds))
    /\ hd_error ds = Some (mkdate 2021 1 3)
    /\ last ds (mkdate 2021 1 3) = mkdate 2021 1 1
    /\ (forall d, In d ds <->
                  valid_date d = true
                  /\ date_leb (mkdate 2021 1 1) d = true
                  /\ date_leb d (mkdate 2021 1 3) = true)
    /\ StronglySorted (fun x y => date_ltb y x = true) ds
    /\ get_days (C:=glibc) "2021-01-01" "2021-01-03"
       = get_days (C:=glibc) "2021-01-03" "2021-01-01".
Proof.
  apply (get_days_descending (C:=glibc) "2021-01-03" "2021-01-01"
           (mkdate 2021 1 3) (mkdate 2021 1 1));
    [reflexivity | reflexivity | discriminate].
Defined.

Lemma get_timeline_slice_filter_witness :
  exists kept : list value,
    get_timeline_slice (VList three_days) (Some ["2021-01-03"; "2021-01-02"])
    = Ok kept
    /\ kept = filter (wanted ["2021-01-03"; "2021-01-02"]) three_days
    /\ (forall r, In r kept <->
                  In r three_days
                  /\ In (date_prefix r) ["2021-01-03"; "2021-01-02"])
    /\ Subseq kept three_days
    /\ (List.length kept <= List.length three_days)%nat.
Proof.
  apply (get_timeline_slice_filter three_days ["2021-01-03"; "2021-01-02"]).
  reflexivity.
Defined.

(** C4, as stated, fails: 9999-12-31 is a valid date string, and as
    [to_date] it makes the addition of a day overflow. *)
Lemma normalize_date_range_overflows :
  strptime "2021-01-01" = Ok (mkdate 2021 1 1)
  /\ strptime "9999-12-31" = Ok (mkdate 9999 12 31)
  /\ normalize_date_range (C:=glibc) "2021-01-01" "9999-12-31"
     = Raise OverflowError.
Proof. repeat split; reflexivity. Qed.

Lemma normalize_date_range_next_day_witness :
  normalize_date_range (C:=glibc) "2021-01-05" "2020-02-28"
  = Ok (Some ("2021-01-05", "2020-02-29"))
  /\ normalize_date_range (C:=glibc) "2021-01-05" "9999-12-31"
     = Raise OverflowError.
Proof.
  split.
  - destruct (normalize_date_range_next_day (C:=glibc)
                "2021-01-05" "2020-02-28" (mkdate 2021 1 5) (mkdate 2020 2 28)
                eq_refl eq_refl) as [H _].
    destruct H as [E _]; [discriminate|exact E].
  - destruct (normalize_date_range_next_day (C:=glibc)
                "2021-01-05" "9999-12-31" (mkdate 2021 1 5)
                (mkdate 9999 12 31) eq_refl eq_refl) as [_ H].
    exact (H eq_refl).
Defined.

(** C5, as stated, fails: "2021-1-1" parses, the one record of the timeline
    is dated 2021-01-01, the day asked for, and yet the slice is empty:
    the only wanted date is the string "2021-1-1". *)
Lemma get_json_slice_full_range_fails :
  strptime "2021-1-1" = Ok (mkdate 2021 1 1)
  /\ json_loads (Json:=json) (dumps (VDict one_day)) = Ok (VDict one_day)
  /\ dict_get "timeline" one_day
     = Some (VList [record 485 "2021-01-01T00:00:00Z"])
  /\ strptime (date_prefix (record 485 "2021-01-01T00:00:00Z"))
     = Ok (mkdate 2021 1 1)
  /\ get_json_slice (C:=glibc) (J:=json)
       (dumps (VDict one_day)) "2021-1-1" "2021-1-1"
     = Ok (dumps (VDict [("timeline", VList [])]))
  /\ dumps (VDict [("timeline", VList [])]) <> dumps (VDict one_day).
Proof.
  repeat split; try (vm_compute; reflexivity).
  vm_compute. discriminate.
Qed.

Lemma get_json_slice_full_range_witness :
  get_json_slice (C:=glibc) (J:=json)
    (dumps (VDict envelope)) "2021-01-01" "2021-01-03"
  = Ok (dumps (VDict envelope)).
Proof.
  apply (get_json_slice_full_range (C:=glibc) (J:=json)
           (dumps (VDict envelope)) "2021-01-01" "2021-01-03"
           envelope three_days (mkdate 2021 1 1) (mkdate 2021 1 3));
    try (vm_compute; reflexivity).
  intros r [<- | [<- | [<- | []]]]; (split; [reflexivity|]).
  - exists (mkdate 2021 1 1). repeat split.
  - exists (mkdate 2021 1 2). repeat split.
  - exists (mkdate 2021 1 3). repeat split.
Defined.

Lemma get_days_length_witness :
  exists l : list string,
    get_days (C:=glibc) "2021-03-01" "2021-02-27" = Ok (Some l)
    /\ Z.of_nat (List.length l) = 2 + 1
    /\ (mkdate 2021 3 1 = mkdate 2021 2 27 -> l = ["2021-03-01"]).
Proof.
  apply (get_days_length (C:=glibc) "2021-03-01" "2021-02-27"
           (mkdate 2021 3 1) (mkdate 2021 2 27)); reflexivity.
Defined.

Lemma get_days_same_day_witness :
  get_days (C:=glibc) "2021-1-5" "2021-01-05" = Ok (Some ["2021-1-5"]).
Proof.
  apply (get_days_same_day (C:=glibc) "2021-1-5" "2021-01-05"
           (mkdate 2021 1 5)); reflexivity.
Defined.

Lemma unparsed_input_is_absorbed_witness :
  (get_days (C:=glibc) "bad-date" "2021-01-01" = Ok None
   /\ normalize_date_range (C:=glibc) "bad-date" "2021-01-01" = Ok None)
  /\ is_valid_args (VDict [("from", VStr "x"); ("to", VStr "2021-01-02")])
     = false.
Proof.
  destruct (unparsed_input_is_absorbed (C:=glibc) "bad-date" "2021-01-01"
              (VDict [("from", VStr "x"); ("to", VStr "2021-01-02")]))
    as [H1 H2].
  split.
  - apply H1. reflexivity.
  - apply H2. right. right. right. left. exists (VStr "x").
    split; reflexivity.
Defined.

Lemma get_json_slice_frame_witness :
  exists (kept : list value) (env' : list (string * value)),
    get_json_slice (C:=glibc) (J:=json)
      (dumps (VDict envelope)) "2021-01-02" "2021-01-03"
    = Ok (dumps (VDict env'))
    /\ dict_get "timeline" env' = Some (VList kept)
    /\ map fst env' = map fst envelope
    /\ (forall key, key <> "timeline" ->
                    dict_get key env' = dict_get key envelope).
Proof.
  apply (get_json_slice_frame (C:=glibc) (J:=json)
           (dumps (VDict envelope)) "2021-01-02" "2021-01-03"
           envelope three_days (mkdate 2021 1 2) (mkdate 2021 1 3));
    vm_compute; reflexivity.
Defined.

(** C10, as stated, fails: on 9999-12-31 given twice no pair is returned,
    the addition overflows; and on "2021-1-1" the first component is not
    the argument but its rendering. *)
Lemma normalize_date_range_same_day_overflows :
  strptime "9999-12-31" = Ok (mkdate 9999 12 31)
  /\ normalize_date_range (C:=glibc) "9999-12-31" "9999-12-31"
     = Raise OverflowError
  /\ normalize_date_range (C:=glibc) "2021-1-1" "2021-1-1"
     = Ok (Some ("2021-01-01", "2021-01-02")).
Proof. repeat split; reflexivity. Qed.

Lemma normalize_date_range_same_day_witness :
  normalize_date_range (C:=glibc) "2021-12-31" "2021-12-31"
  = Ok (Some ("2021-12-31", "2022-01-01"))
  /\ get_days (C:=glibc) "2021-12-31" "2021-12-31" = Ok (Some ["2021-12-31"]).
Proof.
  destruct (normalize_date_range_same_day (C:=glibc) "2021-12-31"
              (mkdate 2021 12 31) eq_refl) as (H & _ & G).
  split; [|exact G].
  destruct H as [_ E]; [discriminate|]. exact (E eq_refl).
Defined.

End Examples.

(** ** The further properties on concrete inputs *)

Module MoreExamples.

Lemma is_valid_args_agrees_witness :
  (is_valid_args (VDict january_args) = true <->
   exists l, get_days (C:=glibc) "2021-01-01" "2021-01-03" = Ok (Some l))
  /\ (is_valid_args (VDict january_args) = false <->
      normalize_date_range (C:=glibc) "2021-01-01" "2021-01-03" = Ok None).
Proof.
  apply (is_valid_args_agrees (C:=glibc) january_args
           "2021-01-01" "2021-01-03"); reflexivity.
Defined.

Lemma get_days_reads_back_witness :
  exists l : list string,
    get_days (C:=glibc) "2021-01-01" "2021-01-03" = Ok (Some l)
    /\ forall x, In x l ->
         exists d, strptime x = Ok d
                   /\ date_leb (earlier (mkdate 2021 1 1) (mkdate 2021 1 3)) d
                      = true
                   /\ date_leb d (later (mkdate 2021 1 1) (mkdate 2021 1 3))
                      = true.
Proof.
  apply (get_days_reads_back (C:=glibc) "2021-01-01" "2021-01-03"
           (mkdate 2021 1 1) (mkdate 2021 1 3)); try reflexivity.
  intros y Hy. cbn in Hy. assert (y = 2021) as -> by lia. reflexivity.
Defined.

Lemma normalize_date_range_reads_back_witness :
  exists start_date end_date : string,
    normalize_date_range (C:=glibc) "2021-1-5" "2021-12-31"
    = Ok (Some (start_date, end_date))
    /\ strptime start_date = Ok (mkdate 2021 1 5)
    /\ strptime end_date = Ok (tomorrow (mkdate 2021 12 31))
    /\ normalize_date_range (C:=glibc) start_date "2021-12-31"
       = normalize_date_range (C:=glibc) "2021-1-5" "2021-12-31".
Proof.
  apply (normalize_date_range_reads_back (C:=glibc) "2021-1-5" "2021-12-31"
           (mkdate 2021 1 5) (mkdate 2021 12 31));
    try reflexivity.
  discriminate.
Defined.

Lemma get_days_is_the_half_open_range_witness :
  exists ds : list date,
    get_days (C:=glibc) "2021-01-01" "2021-01-03"
    = Ok (Some (map (strftime (C:=glibc)) ds))
    /\ normalize_date_range (C:=glibc) "2021-01-01" "2021-01-03"
       = Ok (Some (strftime (C:=glibc) (mkdate 2021 1 1),
                   strftime (C:=glibc) (tomorrow (mkdate 2021 1 3))))
    /\ forall d, valid_date d = true ->
         (In d ds <->
          date_leb (mkdate 2021 1 1) d = true
          /\ date_ltb d (tomorrow (mkdate 2021 1 3)) = true).
Proof.
  apply (get_days_is_the_half_open_range (C:=glibc)
           "2021-01-01" "2021-01-03" (mkdate 2021 1 1) (mkdate 2021 1 3));
    try reflexivity.
  discriminate.
Defined.

Lemma get_days_swap_witness :
  get_days (C:=glibc) "2021-01-05" "2021-1-5"
  = get_days (C:=glibc) "2021-1-5" "2021-01-05" <->
  mkdate 2021 1 5 <> mkdate 2021 1 5 \/ "2021-1-5" = "2021-01-05".
Proof.
  apply (get_days_swap (C:=glibc) "2021-1-5" "2021-01-05"
           (mkdate 2021 1 5) (mkdate 2021 1 5)); reflexivity.
Defined.

Lemma get_days_split_witness :
  exists (later_part earlier_part : list string) (shared : string),
    get_days (C:=glibc) "2021-02-28" "2021-03-02" = Ok (Some later_part)
    /\ get_days (C:=glibc) "2021-02-26" "2021-02-28"
       = Ok (Some (shared :: earlier_part))
    /\ get_days (C:=glibc) "2021-02-26" "2021-03-02"
       = Ok (Some (later_part ++ earlier_part)%list).
Proof.
  apply (get_days_split (C:=glibc) "2021-02-26" "2021-02-28" "2021-03-02"
           (mkdate 2021 2 26) (mkdate 2021 2 28) (mkdate 2021 3 2));
    reflexivity.
Defined.

Lemma get_timeline_slice_bad_element_witness :
  get_timeline_slice
    (VList (three_days ++ VDict [("count", VInt 7)] :: three_days))
    (Some ["2021-01-01"])
  = Raise KeyError
  /\ get_timeline_slice
       (VList (three_days ++ VStr "2021-01-04T00:00:00Z" :: []))
       (Some ["2021-01-01"])
     = Raise TypeError.
Proof.
  split.
  - apply (get_timeline_slice_bad_element three_days three_days
             (VDict [("count", VInt 7)]) ["2021-01-01"]); reflexivity.
  - apply (get_timeline_slice_bad_element three_days []
             (VStr "2021-01-04T00:00:00Z") ["2021-01-01"]);
      [reflexivity|exact I].
Defined.

Lemma get_timeline_slice_twice_witness :
  exists kept1 kept2 both : list value,
    get_timeline_slice (VList three_days)
      (Some ["2021-01-01"; "2021-01-02"]) = Ok kept1
    /\ get_timeline_slice (VList three_days)
         (Some ["2021-01-02"; "2021-01-03"]) = Ok kept2
    /\ get_timeline_slice (VList kept1)
         (Some ["2021-01-02"; "2021-01-03"]) = Ok both
    /\ get_timeline_slice (VList kept2)
         (Some ["2021-01-01"; "2021-01-02"]) = Ok both
    /\ get_timeline_slice (VList kept1)
         (Some ["2021-01-01"; "2021-01-02"]) = Ok kept1
    /\ (forall r, In r both <->
                  In r three_days
                  /\ In (date_prefix r) ["2021-01-01"; "2021-01-02"]
                  /\ In (date_prefix r) ["2021-01-02"; "2021-01-03"]).
Proof.
  apply (get_timeline_slice_twice three_days
           ["2021-01-01"; "2021-01-02"] ["2021-01-02"; "2021-01-03"]).
  reflexivity.
Defined.

Lemma get_timeline_slice_not_a_list_witness :
  get_timeline_slice (VDict envelope) (Some ["2021-01-01"])
  = Raise TypeError.
Proof.
  apply (get_timeline_slice_not_a_list (VDict envelope)
           (Some ["2021-01-01"])).
  discriminate.
Defined.

Lemma get_json_slice_errors_witness :
  get_json_slice (C:=glibc) (J:=other_json)
    "timeline" "2021-01-01" "2021-01-03"
  = Raise JSONDecodeError
  /\ get_json_slice (C:=glibc) (J:=other_json)
       (dumps (VList three_days)) "2021-01-01" "2021-01-03"
     = Raise TypeError
  /\ get_json_slice (C:=glibc) (J:=other_json)
       (dumps (VDict [("about", VStr "needstriage")]))
       "2021-01-01" "bad-date"
     = Raise KeyError.
Proof.
  split; [|split].
  - apply (get_json_slice_errors (C:=glibc) (J:=other_json)
             "timeline" "2021-01-01" "2021-01-03").
    vm_compute. reflexivity.
  - apply (get_json_slice_errors (C:=glibc) (J:=other_json)
             (dumps (VList three_days)) "2021-01-01" "2021-01-03")
      with (doc := VList three_days).
    + vm_compute. reflexivity.
    + discriminate.
  - apply (get_json_slice_errors (C:=glibc) (J:=other_json)
             (dumps (VDict [("about", VStr "needstriage")]))
             "2021-01-01" "bad-date")
      with (items := [("about", VStr "needstriage")]).
    + vm_compute. reflexivity.
    + reflexivity.
Defined.

Lemma get_json_slice_keeps_witness :
  exists (dates : list string) (kept : list value),
    get_days (C:=glibc) "2021-01-02" "2021-01-03" = Ok (Some dates)
    /\ get_json_slice (C:=glibc) (J:=json)
         (dumps (VDict envelope)) "2021-01-02" "2021-01-03"
       = Ok (dumps (VDict (dict_set "timeline" (VList kept) envelope)))
    /\ Subseq kept three_days
    /\ (forall r, In r kept <->
                  In r three_days /\ In (date_prefix r) dates).
Proof.
  apply (get_json_slice_keeps (C:=glibc) (J:=json)
           (dumps (VDict envelope)) "2021-01-02" "2021-01-03"
           envelope three_days (mkdate 2021 1 2) (mkdate 2021 1 3));
    vm_compute; reflexivity.
Defined.


Lemma get_json_slice_unpadded_day_witness :
  get_json_slice (C:=glibc) (J:=json)
    (dumps (VDict one_day)) "2021-1-1" "2021-01-01"
  = Ok (dumps (VDict (dict_set "timeline" (VList []) one_day))).
Proof.
  apply (get_json_slice_unpadded_day (C:=glibc) (J:=json)
           (dumps (VDict one_day)) "2021-1-1" "2021-01-01"
           one_day [record 485 "2021-01-01T00:00:00Z"] (mkdate 2021 1 1));
    try (vm_compute; reflexivity).
  - vm_compute. discriminate.
  - intros r [<- | []]. split; [reflexivity|].
    exists (mkdate 2021 1 1). repeat split.
Defined.

End MoreExamples.
